(** * atlite.datasets.cmip: retrieval of CMIP data from the ESGF servers

    A shallow embedding of [atlite/datasets/cmip.py], the properties of it
    that the specification states, and further properties of the code.

    Conventions of the embedding.
    - Coordinate labels (longitude, latitude, level, bounds) are compared
      and sorted by the code, so they are exact rationals [Q]; field values
      only go through arithmetic, [sqrt] and [log], so they are real
      numbers [R].  Rounding of floating-point numbers and NaN are not
      modelled.
    - A Python exception is a value of [PyErr]; code that can raise returns
      [Res].  Code that touches the ESGF servers, the lock or the dict that
      [cutout.esgf_params] refers to runs in the monad [M], whose state
      holds that dict and the trace of what happened outside the program.
    - dask's laziness is not modelled: an array is its values.  The
      variables of one model run live on one grid, so arithmetic between
      arrays is position by position (xarray would align them by label
      first).  Logging and printing are left out. *)

From Stdlib Require Import Reals Lqa Lra QArith Qround ZArith Lia String Ascii List.
From stdpp Require Import gmap strings list fin_maps sorting.

Local Open Scope Z_scope.

(** ** Exceptions *)

Inductive PyErr :=
  | ValueError (msg : string)
  | TypeError (msg : string)
  | KeyError (key : string)
  | AttributeError (name : string)
  | UnboundLocalError (name : string)
  | IndexError
  | OSError (msg : string).

Inductive Res (A : Type) :=
  | Ok (a : A)
  | Err (e : PyErr).
Arguments Ok {A} a.
Arguments Err {A} e.

Definition res_bind {A B} (r : Res A) (k : A → Res B) : Res B :=
  match r with
  | Ok a => k a
  | Err e => Err e
  end.

Global Instance Res_ret : MRet Res := @Ok.
Global Instance Res_bind : MBind Res := fun A B k r => res_bind r k.

(** ** Strings: [str.split], slices and [int] *)

Module PyStr.

(** [s.split(sep)] for a one-character separator: never empty. *)
Fixpoint split (sep : ascii) (s : string) : list string :=
  match s with
  | EmptyString => [EmptyString]
  | String a s' =>
      if Ascii.eqb a sep then EmptyString :: split sep s'
      else match split sep s' with
           | h :: t => String a h :: t
           | [] => [String a EmptyString]
           end
  end.

(** [s[:n]] *)
Fixpoint prefix (n : nat) (s : string) : string :=
  match n, s with
  | S n', String a s' => String a (prefix n' s')
  | _, _ => EmptyString
  end.

Definition digit_of (a : ascii) : option Z :=
  let n := nat_of_ascii a in
  if (48 <=? n)%nat && (n <=? 57)%nat then Some (Z.of_nat (n - 48)) else None.

Fixpoint int_digits (acc : Z) (s : string) : option Z :=
  match s with
  | EmptyString => Some acc
  | String a s' =>
      match digit_of a with
      | Some d => int_digits (10 * acc + d) s'
      | None => None
      end
  end.

(** [int(s)] on a string of decimal digits, the only literals that a
    [YYYYMMDD] token holds; any other string is a [ValueError] here (a sign,
    surrounding blanks or underscores, which [int] also reads, are not
    modelled). *)
Definition int (s : string) : Res Z :=
  match s with
  | EmptyString => Err (ValueError "invalid literal for int()")
  | _ => match int_digits 0 s with
         | Some z => Ok z
         | None => Err (ValueError "invalid literal for int()")
         end
  end.

(** [l[0]], [l[1]], [l[-1]] *)
Definition item {A} (l : list A) (i : nat) : Res A :=
  match nth_error l i with
  | Some a => Ok a
  | None => Err IndexError
  end.

Definition last_item {A} (l : list A) : Res A :=
  match rev l with
  | a :: _ => Ok a
  | [] => Err IndexError
  end.

(** [sub in s] *)
Fixpoint is_prefix (p s : string) : bool :=
  match p, s with
  | EmptyString, _ => true
  | String a p', String b s' => Ascii.eqb a b && is_prefix p' s'
  | String _ _, EmptyString => false
  end.

Fixpoint contains (sub s : string) : bool :=
  is_prefix sub s ||
  match s with
  | EmptyString => false
  | String _ s' => contains sub s'
  end.

End PyStr.

(** ** The temporal coverage filter *)

(** [pd.date_range(str(s_year), str(e_year), freq="AS").year]: the years of
    the January-1st timestamps from [s_year] to [e_year], both included
    (none when [e_year < s_year]); years are taken in the range that pandas
    timestamps represent. *)
Definition date_range_years (s_year e_year : Z) : list Z :=
  map (fun k => s_year + Z.of_nat k) (seq 0 (Z.to_nat (e_year - s_year + 1))).

(** [y in years] / [index.isin(years)] *)
Definition year_in (y : Z) (years : list Z) : bool :=
  existsb (Z.eqb y) years.

Definition _year_in_file (time_range : string) (years : list Z) : Res bool :=
  time_range ← PyStr.item (PyStr.split "." time_range) 0;
  s0 ← PyStr.item (PyStr.split "-" time_range) 0;
  s_year ← PyStr.int (PyStr.prefix 4 s0);
  e0 ← PyStr.item (PyStr.split "-" time_range) 1;
  e_year ← PyStr.int (PyStr.prefix 4 e0);
  let date_range := date_range_years s_year e_year in
  if (s_year =? e_year) && year_in e_year years then Ok true
  else if existsb (fun y => year_in y years) date_range then Ok true
  else Ok false.


(** ** Coordinate labels *)

(** Python's [x % m] on numbers: the remainder has the sign of [m]. *)
Definition pymod (x m : Q) : Q :=
  (x - m * inject_Z (Qfloor (x / m)))%Q.

(** [((lon + 180) % 360) - 180]; the label is kept in lowest terms, as a
    float has one representation. *)
Definition wrap_lon (lon : Q) : Q :=
  Qred (pymod (lon + 180) 360 - 180)%Q.

(** [sortby]: a stable sort on a rational key. *)
Fixpoint insert_by {A} (key : A → Q) (a : A) (l : list A) : list A :=
  match l with
  | [] => [a]
  | b :: l' =>
      if Qle_bool (key a) (key b) then a :: l else b :: insert_by key a l'
  end.

Definition sort_by {A} (key : A → Q) (l : list A) : list A :=
  foldr (insert_by key) [] l.

(** The positions of the labels that a predicate keeps, counted from [n]. *)
Fixpoint positions_from {A} (keep : A → bool) (n : nat) (l : list A) : list nat :=
  match l with
  | [] => []
  | a :: l' =>
      if keep a then n :: positions_from keep (S n) l'
      else positions_from keep (S n) l'
  end.

(** A label slice [slice(start, stop)] on a monotonic axis keeps the labels
    between the two ends, both included, in the direction of the axis. *)
Definition axis_ascending (axis : list Q) : bool :=
  match axis, rev axis with
  | a :: _, b :: _ => Qle_bool a b
  | _, _ => true
  end.

Definition in_slice (axis : list Q) (start stop v : Q) : bool :=
  if axis_ascending axis then Qle_bool start v && Qle_bool v stop
  else Qle_bool stop v && Qle_bool v start.

(** ** Time stamps *)

Record Timestamp := mkTimestamp {
  year : Z; month : Z; day : Z; hour : Z; minute : Z
}.

Definition timestamp_leb (a b : Timestamp) : bool :=
  match year a ?= year b with
  | Lt => true | Gt => false
  | Eq =>
    match month a ?= month b with
    | Lt => true | Gt => false
    | Eq =>
      match day a ?= day b with
      | Lt => true | Gt => false
      | Eq =>
        match hour a ?= hour b with
        | Lt => true | Gt => false
        | Eq => minute a <=? minute b
        end
      end
    end
  end.

(** [datetime.datetime(t.year, t.month, t.day, t.hour)] *)
Definition truncate_to_hour (t : Timestamp) : Timestamp :=
  mkTimestamp (year t) (month t) (day t) (hour t) 0.

(** A time axis holds numpy [datetime64] stamps or cftime dates of some
    calendar. *)
Inductive TimeAxis :=
  | Datetime64 (stamps : list Timestamp)
  | CFTime (calendar : string) (stamps : list Timestamp).

Definition stamps_of (t : TimeAxis) : list Timestamp :=
  match t with
  | Datetime64 ts => ts
  | CFTime _ ts => ts
  end.

Definition with_stamps (t : TimeAxis) (ts : list Timestamp) : TimeAxis :=
  match t with
  | Datetime64 _ => Datetime64 ts
  | CFTime c _ => CFTime c ts
  end.

(** ** Arrays and datasets *)

(** A position on the (time, lev, y, x) grid; an array without one of the
    dimensions does not look at that component, which is how it
    broadcasts. *)
Record Index := mkIndex {
  i_time : nat; i_lev : nat; i_y : nat; i_x : nat
}.

Definition DataArray := Index → R.

Inductive Dim := DTime | DLev | DY | DX.

Definition get_dim (d : Dim) (i : Index) : nat :=
  match d with
  | DTime => i_time i | DLev => i_lev i | DY => i_y i | DX => i_x i
  end.

Definition set_dim (d : Dim) (k : nat) (i : Index) : Index :=
  match d with
  | DTime => mkIndex k (i_lev i) (i_y i) (i_x i)
  | DLev => mkIndex (i_time i) k (i_y i) (i_x i)
  | DY => mkIndex (i_time i) (i_lev i) k (i_x i)
  | DX => mkIndex (i_time i) (i_lev i) (i_y i) k
  end.

(** [a.isel(d=k)] and [a.isel(d=positions)] *)
Definition isel1 (d : Dim) (k : nat) (a : DataArray) : DataArray :=
  fun i => a (set_dim d k i).

Definition take_along (d : Dim) (pos : list nat) (a : DataArray) : DataArray :=
  fun i => a (set_dim d (nth (get_dim d i) pos 0%nat) i).

(** Values of a dict: [None], a string, or a list of strings. *)
Inductive PyVal :=
  | VNone
  | VStr (s : string)
  | VList (l : list string).

Global Instance PyVal_eq_dec : EqDecision PyVal.
Proof. solve_decision. Defined.

Abbreviation dict := (gmap string PyVal).

(** [d[k]], [d.get(k)] compared with [None], [d.pop(k)] *)
Definition getitem (d : dict) (k : string) : Res PyVal :=
  match d !! k with
  | Some v => Ok v
  | None => Err (KeyError k)
  end.

Definition get_or_none (d : dict) (k : string) : PyVal :=
  default VNone (d !! k).

Definition pop (d : dict) (k : string) : Res dict :=
  match d !! k with
  | Some _ => Ok (delete k d)
  | None => Err (KeyError k)
  end.

(** How the horizontal axes are called: [lon]/[lat] as retrieved, [x]/[y]
    once renamed, and [x]/[y] with [lon]/[lat] put back as aliases. *)
Inductive HorizNames := LonLat | XY | XYLonLat.

Record Dataset := mkDataset {
  ds_time : TimeAxis;
  ds_lev : option (list Q);        (* the [lev] axis, when there is one *)
  ds_lat : list Q;                 (* [lat], or [y] once renamed *)
  ds_lon : list Q;                 (* [lon], or [x] once renamed *)
  ds_horiz : HorizNames;
  ds_scalars : gset string;        (* scalar coordinates, such as [height] *)
  data_vars : gmap string DataArray;
  attrs : dict
}.

Definition with_data_vars (vars : gmap string DataArray) (ds : Dataset) : Dataset :=
  mkDataset (ds_time ds) (ds_lev ds) (ds_lat ds) (ds_lon ds) (ds_horiz ds)
            (ds_scalars ds) vars (attrs ds).

(** [ds.attrs = d] *)
Definition set_attrs (d : dict) (ds : Dataset) : Dataset :=
  mkDataset (ds_time ds) (ds_lev ds) (ds_lat ds) (ds_lon ds) (ds_horiz ds)
            (ds_scalars ds) (data_vars ds) d.

(** [ds.name] for a data variable *)
Definition getvar (ds : Dataset) (name : string) : Res DataArray :=
  match data_vars ds !! name with
  | Some a => Ok a
  | None => Err (AttributeError name)
  end.

(** [name in ds.data_vars] *)
Definition has_var (ds : Dataset) (name : string) : bool :=
  bool_decide (is_Some (data_vars ds !! name)).

(** [ds[name] = a] *)
Definition setitem (name : string) (a : DataArray) (ds : Dataset) : Dataset :=
  with_data_vars (<[name := a]> (data_vars ds)) ds.

(** [for variable in list(ds.keys()): if variable not in keep: ds =
    ds.drop_vars(variable)]; the keys of a dataset are its data variables. *)
Definition drop_unless (keep : list string) (vars : gmap string DataArray) (variable : string)
  : gmap string DataArray :=
  if bool_decide (variable ∈ keep) then vars else delete variable vars.

Definition prune (keep : list string) (ds : Dataset) : Dataset :=
  with_data_vars
    (fold_left (drop_unless keep) (map fst (map_to_list (data_vars ds))) (data_vars ds))
    ds.

(** [ds.rename({old: new})] on a data variable *)
Definition rename_var (old new : string) (ds : Dataset) : Res Dataset :=
  match data_vars ds !! old with
  | None => Err (ValueError "cannot rename: the variable is not in the dataset")
  | Some a =>
      if bool_decide (is_Some (data_vars ds !! new))
      then Err (ValueError "the new name conflicts")
      else Ok (with_data_vars (<[new := a]> (delete old (data_vars ds))) ds)
  end.

(** [ds.drop_vars(name)] on a scalar coordinate *)
Definition drop_scalar (name : string) (ds : Dataset) : Res Dataset :=
  if bool_decide (name ∈ ds_scalars ds)
  then Ok (mkDataset (ds_time ds) (ds_lev ds) (ds_lat ds) (ds_lon ds) (ds_horiz ds)
                     (ds_scalars ds ∖ {[name]}) (data_vars ds) (attrs ds))
  else Err (ValueError "the variable is not in the dataset").

(** [ds.isel(d=positions)] on each of the four dimensions *)
Definition isel_time (pos : list nat) (ds : Dataset) : Dataset :=
  let ts := stamps_of (ds_time ds) in
  mkDataset (with_stamps (ds_time ds) (omap (fun k => ts !! k) pos))
            (ds_lev ds) (ds_lat ds) (ds_lon ds) (ds_horiz ds) (ds_scalars ds)
            (take_along DTime pos <$> data_vars ds) (attrs ds).

Definition isel_lev (pos : list nat) (ds : Dataset) : Dataset :=
  mkDataset (ds_time ds)
            ((fun l => omap (fun k => l !! k) pos) <$> ds_lev ds)
            (ds_lat ds) (ds_lon ds) (ds_horiz ds) (ds_scalars ds)
            (take_along DLev pos <$> data_vars ds) (attrs ds).

Definition isel_y (pos : list nat) (ds : Dataset) : Dataset :=
  mkDataset (ds_time ds) (ds_lev ds)
            (omap (fun k => ds_lat ds !! k) pos)
            (ds_lon ds) (ds_horiz ds) (ds_scalars ds)
            (take_along DY pos <$> data_vars ds) (attrs ds).

Definition isel_x (pos : list nat) (ds : Dataset) : Dataset :=
  mkDataset (ds_time ds) (ds_lev ds) (ds_lat ds)
            (omap (fun k => ds_lon ds !! k) pos)
            (ds_horiz ds) (ds_scalars ds)
            (take_along DX pos <$> data_vars ds) (attrs ds).

(** [ds.sel(lev=slice.., time=slice(t0, t1), x=slice(x0, x1), y=slice(y0,
    y1))]; the dataset must have the axes by these names. *)
Definition sel (levs : option (Q * Q)) (t0 t1 : Timestamp) (xs ys : Q * Q)
    (ds : Dataset) : Res Dataset :=
  ds ← match levs with
       | None => Ok ds
       | Some (l0, l1) =>
           match ds_lev ds with
           | None => Err (KeyError "lev")
           | Some axis =>
               Ok (isel_lev (positions_from (in_slice axis l0 l1) 0 axis) ds)
           end
       end;
  match ds_horiz ds with
  | LonLat => Err (KeyError "x")
  | _ =>
      let ds := isel_time (positions_from
                  (fun t => timestamp_leb t0 t && timestamp_leb t t1) 0
                  (stamps_of (ds_time ds))) ds in
      let ds := isel_x (positions_from (in_slice (ds_lon ds) (fst xs) (snd xs)) 0
                                       (ds_lon ds)) ds in
      Ok (isel_y (positions_from (in_slice (ds_lat ds) (fst ys) (snd ys)) 0
                                 (ds_lat ds)) ds)
  end.

(** [xr.merge(dsets)] for datasets on one grid: the axes of the first, the
    variables of all. *)
Definition empty_dataset : Dataset :=
  mkDataset (Datetime64 []) None [] [] LonLat ∅ ∅ ∅.

Definition merge2 (a b : Dataset) : Dataset :=
  mkDataset (ds_time a) (ds_lev a) (ds_lat a) (ds_lon a) (ds_horiz a)
            (ds_scalars a ∪ ds_scalars b) (data_vars a ∪ data_vars b) ∅.

Definition merge (dsets : list Dataset) : Dataset :=
  match dsets with
  | [] => empty_dataset
  | d :: rest => fold_left merge2 rest (set_attrs ∅ d)
  end.

(** ** The world outside the program, and the monad of the retrieval *)

(** A lock object handed in by the caller. *)
Inductive Lock := SerialLock.

(** What the program does to the outside, in the order it does it. *)
Inductive Event :=
  | EAcquire                       (* the lock is entered *)
  | ERelease                       (* the lock is left *)
  | ESearch (query : dict)         (* [conn.new_context(latest=True, **query)] *)
  | EConstrain (query : dict)      (* the context constrained for a second try *)
  | EOpen (files : list string).   (* [xr.open_mfdataset(files, ...)] *)

(** The servers and libraries that the program only consumes. *)
Record World := mkWorld {
  (* the dataset records that match a query, the most authoritative first,
     each with the OPeNDAP url of its files (a file may have none) *)
  catalog : dict → list (list (option string));
  (* the files opened and concatenated along time *)
  open_mfdataset : list string → Res Dataset;
  (* xclim's [convert_calendar(ds, target, align_on="year")] from a 360-day
     calendar: the new time stamps, and what happens to an array along time *)
  convert_calendar : list Timestamp → list Timestamp →
                     list Timestamp * (DataArray → DataArray);
  (* [CFTimeIndex(...).to_datetimeindex(unsafe=True)] for a calendar *)
  to_datetimeindex : string → list Timestamp → Res (list Timestamp)
}.

(** The state: the dict object that [cutout.esgf_params] refers to ([None]
    when the attribute is [None]), which [get_data] updates in place through
    its alias, and the events so far. *)
Record State := mkState {
  esgf_params_of_cutout : option dict;
  trace : list Event
}.

Definition M (A : Type) : Type := State → Res A * State.

Global Instance M_ret : MRet M := fun A a s => (Ok a, s).
Global Instance M_bind : MBind M := fun A B k m s =>
  match m s with
  | (Ok a, s') => k a s'
  | (Err e, s') => (Err e, s')
  end.

Definition raise {A} (e : PyErr) : M A := fun s => (Err e, s).

Definition liftR {A} (r : Res A) : M A := fun s => (r, s).

Definition emit (e : Event) : M unit := fun s =>
  (Ok tt, mkState (esgf_params_of_cutout s) (trace s ++ [e])).

(** [with lock: body], where [lock] is [nullcontext()] when none was given:
    the lock is left however the body ends. *)
Definition with_lock {A} (lock : option Lock) (body : M A) : M A :=
  match lock with
  | None => body
  | Some _ => fun s =>
      let '(r, s') := body (snd (emit EAcquire s)) in
      (r, snd (emit ERelease s'))
  end.

(** The target grid. [esgf_params] is in the state. *)
Record Cutout := mkCutout {
  dt : string;
  coords_time : list Timestamp;      (* [coords["time"]], also [data.time] *)
  bounds : Q * Q * Q * Q
}.

(** What [get_data] hands to the calculators ([chunks], always
    [{"time": 10}], only shapes the lazy arrays). *)
Record RetrievalParams := mkRetrievalParams {
  tmpdir : string;
  lock : option Lock
}.

(** ** Catalog resolution *)

Definition str_add (v : PyVal) (suffix : string) : Res string :=
  match v with
  | VStr s => Ok (s +:+ suffix)
  | _ => Err (TypeError "unsupported operand type(s) for +")
  end.

Definition search_ESGF (w : World) (esgf_params : dict) : M (list (option string)) :=
  _ ← emit (ESearch esgf_params);
  match catalog w esgf_params with
  | latest :: _ => mret latest
  | [] =>
      frequency ← liftR (getitem esgf_params "frequency");
      frequency ← liftR (str_add frequency "Pt");
      let constrained := <["frequency" := VStr frequency]> esgf_params in
      _ ← emit (EConstrain constrained);
      match catalog w constrained with
      | latest :: _ => mret latest
      | [] => raise (ValueError "No results found in the ESGF_database")
      end
  end.

(** ** Retrieval and merge *)

(** [[f.opendap_url for f in search_results
      if _year_in_file(f.opendap_url.split("_")[-1], years)]] *)
Fixpoint files_of_years (search_results : list (option string)) (years : list Z)
  : Res (list string) :=
  match search_results with
  | [] => Ok []
  | f :: rest =>
      match f with
      | None => Err (AttributeError "split")
      | Some opendap_url =>
          token ← PyStr.last_item (PyStr.split "_" opendap_url);
          keep ← _year_in_file token years;
          files ← files_of_years rest years;
          Ok (if keep : bool then opendap_url :: files else files)
      end
  end.

(** [time.year.unique()] *)
Definition unique_years (times : list Timestamp) : list Z :=
  remove_dups (map year times).

(** The body of the loop over [variables]; the dict is updated in place, so
    it is handed on together with the datasets. *)
Definition retrieve_variable (w : World) (years : list Z)
    (acc : dict * list Dataset) (variable : string) : M (dict * list Dataset) :=
  let '(esgf_params, dsets) := acc in
  let esgf_params := <["variable" := VStr variable]> esgf_params in
  search_results ← search_ESGF w esgf_params;
  files ← liftR (files_of_years search_results years);
  _ ← emit (EOpen files);
  ds ← liftR (open_mfdataset w files);
  mret (esgf_params, dsets ++ [ds]).

Fixpoint for_each {A B} (body : A → B → M A) (acc : A) (l : list B) : M A :=
  match l with
  | [] => mret acc
  | b :: l' => acc ← body acc b; for_each body acc l'
  end.

(** Returns the dataset and the dict [esgf_params] as the call leaves it
    ([tmpdir] is not used, and [chunks] does not change the values). *)
Definition retrieve_data (w : World) (esgf_params : dict) (times : list Timestamp)
    (variables : list string) (rp : RetrievalParams) : M (Dataset * dict) :=
  let years := unique_years times in
  '(esgf_params, dsets) ←
     with_lock (lock rp) (for_each (retrieve_variable w years) (esgf_params, []) variables);
  let ds := merge dsets in
  mret (set_attrs esgf_params ds, esgf_params).

(** ** Coordinate normalisation *)

(** Lines 441 to 444: the longitudes wrapped, and the dataset sorted along
    them. *)
Definition normalize_lon (ds : Dataset) : Res Dataset :=
  match ds_horiz ds with
  | XY => Err (AttributeError "lon")
  | _ =>
      let lon := map wrap_lon (ds_lon ds) in
      let sorted := sort_by fst (zip lon (seq 0 (length lon))) in
      Ok (mkDataset (ds_time ds) (ds_lev ds) (ds_lat ds) (map fst sorted)
                    (ds_horiz ds) (ds_scalars ds)
                    (take_along DX (map snd sorted) <$> data_vars ds) (attrs ds))
  end.

(** [ds.rename({"lon": "x", "lat": "y"})] *)
Definition rename_lon_lat (ds : Dataset) : Res Dataset :=
  match ds_horiz ds with
  | LonLat => Ok (mkDataset (ds_time ds) (ds_lev ds) (ds_lat ds) (ds_lon ds) XY
                            (ds_scalars ds) (data_vars ds) (attrs ds))
  | _ => Err (ValueError "cannot rename lon and lat to x and y")
  end.

(** Modelled from the spec: [maybe_swap_spatial_dims] of [atlite.gis], which
    is not among the sources; the axis-orientation fixup: a horizontal axis
    that runs downward is reversed, so that it ascends as on the target
    grid. *)
Definition maybe_swap_spatial_dims (ds : Dataset) : Res Dataset :=
  lx ← PyStr.item (ds_lon ds) 0;
  rx ← PyStr.last_item (ds_lon ds);
  ly ← PyStr.item (ds_lat ds) 0;
  uy ← PyStr.last_item (ds_lat ds);
  let ds := if Qle_bool lx rx then ds
            else isel_x (rev (seq 0 (length (ds_lon ds)))) ds in
  let ds := if Qle_bool ly uy then ds
            else isel_y (rev (seq 0 (length (ds_lat ds)))) ds in
  Ok ds.

(** [ds.assign_coords(lon=ds.coords["x"], lat=ds.coords["y"])] *)
Definition add_lon_lat (ds : Dataset) : Dataset :=
  mkDataset (ds_time ds) (ds_lev ds) (ds_lat ds) (ds_lon ds) XYLonLat
            (ds_scalars ds) (data_vars ds) (attrs ds).

(** [ds.assign_coords(time=t)] *)
Definition set_time (t : TimeAxis) (ds : Dataset) : Dataset :=
  mkDataset t (ds_lev ds) (ds_lat ds) (ds_lon ds) (ds_horiz ds)
            (ds_scalars ds) (data_vars ds) (attrs ds).

(** [add_lon_lat] and [add_ctime] keep their defaults at every call. *)
Definition _rename_and_fix_coords (w : World) (cutout : Cutout) (ds : Dataset)
  : Res Dataset :=
  ds ← normalize_lon ds;
  ds ← rename_lon_lat ds;
  ds ← maybe_swap_spatial_dims ds;
  let ds := add_lon_lat ds in
  match ds_time ds with
  | Datetime64 [] | CFTime _ [] => Err IndexError
  | Datetime64 _ => Ok ds
  | CFTime calendar stamps =>
      if String.eqb calendar "360_day" then
        let '(stamps, f) := convert_calendar w stamps (coords_time cutout) in
        Ok (set_time (Datetime64 stamps) (with_data_vars (f <$> data_vars ds) ds))
      else
        stamps ← to_datetimeindex w calendar stamps;
        Ok (set_time (Datetime64 stamps) ds)
  end.

(** ** The calculators *)

Definition features : gmap string (list string) :=
  {[ "wind" := ["wnd"; "z"; "ua"; "va"; "ta"; "hus"; "pa"];
     "influx" := ["influx"; "outflux"];
     "wind10m" := ["ua10m"; "va10m"; "wnd10m"];
     "surface" := ["temperature"; "humidity"; "pressure"] ]}.

(** The slices that every calculator takes: the hours of the first and last
    time of the cutout, and its box. *)
Definition sel_cutout (levs : option (Q * Q)) (time_start time_end : Timestamp)
    (cutout : Cutout) (ds : Dataset) : Res Dataset :=
  let '(b0, b1, b2, b3) := bounds cutout in
  sel levs time_start time_end (b0, b2) (b1, b3) ds.

Definition get_data_influx (w : World) (esgf_params_all : dict) (cutout : Cutout)
    (retrieval_params : RetrievalParams) : M Dataset :=
  source_id ← liftR (getitem esgf_params_all "source_id");
  variant_label ← liftR (getitem esgf_params_all "variant_label");
  experiment_id ← liftR (getitem esgf_params_all "experiment_id");
  project ← liftR (getitem esgf_params_all "project");
  frequency ← liftR (getitem esgf_params_all "frequency_solar");
  let esgf_params : dict :=
    <["frequency" := frequency]> (<["project" := project]>
    (<["experiment_id" := experiment_id]> (<["variant_label" := variant_label]>
    (<["source_id" := source_id]> ∅)))) in
  let times := coords_time cutout in
  first ← liftR (PyStr.item times 0);
  let time_start := truncate_to_hour first in
  last ← liftR (PyStr.last_item times);
  let time_end := truncate_to_hour last in
  '(drsds, esgf_params) ← retrieve_data w esgf_params times ["rsds"] retrieval_params;
  rsds ← liftR (_rename_and_fix_coords w cutout drsds);
  '(drsus, esgf_params) ← retrieve_data w esgf_params times ["rsus"] retrieval_params;
  rsus ← liftR (_rename_and_fix_coords w cutout drsus);
  rsds ← liftR (sel_cutout None time_start time_end cutout rsds);
  rsus ← liftR (sel_cutout None time_start time_end cutout rsus);
  let ds := rsds in
  rsus_rsus ← liftR (getvar rsus "rsus");
  let ds := setitem "rsus" rsus_rsus ds in
  let ds := prune ["rsds"; "rsus"] ds in
  ds ← liftR (rename_var "rsds" "influx" ds);
  ds ← liftR (rename_var "rsus" "outflux" ds);
  let attr := <["variables" := VList ["influx"; "outflux"]]> esgf_params in
  attr ← liftR (pop attr "variable");
  mret (set_attrs attr ds).

(** [ds["influx"].clip(min=0.0)] *)
Definition clip_min (lo : R) (a : DataArray) : DataArray :=
  fun i => Rmax (a i) lo.

Definition sanitize_inflow (ds : Dataset) : Res Dataset :=
  match data_vars ds !! "influx" with
  | Some influx => Ok (setitem "influx" (clip_min 0 influx) ds)
  | None => Err (KeyError "influx")
  end.

(** The parameters of lines 173 to 175. *)
Definition Rd : R := 287.058%R.
Definition g : R := 9.80665%R.
Definition eps : R := 0.62198%R.

(** Lines 209 and 214 to 216: the height of level 0, and the height [z1] of
    level [k] from the height [z0] of the level below. *)
Definition surface_layer (tv p ps : DataArray) : DataArray :=
  fun i => (- (Rd / g) * isel1 DLev 0 tv i * ln (isel1 DLev 0 p i / ps i))%R.

Definition next_layer (tv p z0 : DataArray) (k : nat) : DataArray :=
  fun i => (z0 i - (Rd / g) * 0.5
                   * (isel1 DLev k tv i + isel1 DLev (k - 1) tv i)
                   * ln (isel1 DLev k p i / isel1 DLev (k - 1) p i))%R.

(** Lines 208 to 218: the heights of the levels, one array per level, built
    from level 0 upward by [for k in range(1, klev)]. *)
Definition hypsometric_heights (klev : nat) (tv p ps : DataArray) : list DataArray :=
  let z0 := surface_layer tv p ps in
  fst (fold_left
         (fun (acc : list DataArray * DataArray) (k : nat) =>
            let '(z, z0) := acc in
            let z1 := next_layer tv p z0 k in
            (z ++ [z1], z1))
         (seq 1 (klev - 1)) ([z0], z0)).

(** [xr.concat] along [lev] of arrays that have no [lev] *)
Definition concat_lev (layers : list DataArray) : DataArray :=
  fun i => nth (i_lev i) layers (fun _ => 0%R) i.

(** The coordinate [lev] broadcast as an array *)
Definition lev_array (ds : Dataset) : DataArray :=
  fun i => Q2R (nth (i_lev i) (default [] (ds_lev ds)) 0%Q).

Definition get_data_wind (w : World) (esgf_params_all : dict) (cutout : Cutout)
    (retrieval_params : RetrievalParams) : M Dataset :=
  source_id ← liftR (getitem esgf_params_all "source_id");
  variant_label ← liftR (getitem esgf_params_all "variant_label");
  experiment_id ← liftR (getitem esgf_params_all "experiment_id");
  project ← liftR (getitem esgf_params_all "project");
  frequency ← liftR (getitem esgf_params_all "frequency_wind");
  table_id ← liftR (getitem esgf_params_all "table_id_wind");
  let esgf_params : dict :=
    <["table_id" := table_id]> (<["frequency" := frequency]>
    (<["project" := project]> (<["experiment_id" := experiment_id]>
    (<["variant_label" := variant_label]> (<["source_id" := source_id]> ∅))))) in
  let times := coords_time cutout in
  '(du, esgf_params) ← retrieve_data w esgf_params times ["ua"] retrieval_params;
  u ← liftR (_rename_and_fix_coords w cutout du);
  '(dv, esgf_params) ← retrieve_data w esgf_params times ["va"] retrieval_params;
  v ← liftR (_rename_and_fix_coords w cutout dv);
  let levs : Q * Q := if has_var u "ps" then (1, 0.9)%Q else (50, 200)%Q in
  first ← liftR (PyStr.item times 0);
  let time_start := truncate_to_hour first in
  last ← liftR (PyStr.last_item times);
  let time_end := truncate_to_hour last in
  u ← liftR (sel_cutout (Some levs) time_start time_end cutout u);
  v ← liftR (sel_cutout (Some levs) time_start time_end cutout v);
  u_ua ← liftR (getvar u "ua");
  v_va ← liftR (getvar v "va");
  let wspd : DataArray := fun i => sqrt (u_ua i * u_ua i + v_va i * v_va i) in
  (* [t], [q] and [p] are bound in the first branch only *)
  '(z, t_q_p, esgf_params) ←
    (if has_var u "ps" then
       '(dt, esgf_params) ← retrieve_data w esgf_params times ["ta"] retrieval_params;
       t ← liftR (_rename_and_fix_coords w cutout dt);
       t ← liftR (sel_cutout (Some levs) time_start time_end cutout t);
       '(dq, esgf_params) ← retrieve_data w esgf_params times ["hus"] retrieval_params;
       q ← liftR (_rename_and_fix_coords w cutout dq);
       q ← liftR (sel_cutout (Some levs) time_start time_end cutout q);
       t_ta ← liftR (getvar t "ta");
       q_hus ← liftR (getvar q "hus");
       let tv : DataArray :=
         fun i => (t_ta i * ((q_hus i + eps) / (eps * (1.0 + q_hus i))))%R in
       b ← liftR (getvar u "b");
       ps ← liftR (getvar t "ps");
       ap ← liftR (if has_var u "p0" then
                     a ← getvar u "a";
                     p0 ← getvar u "p0";
                     Ok ((fun i => a i * p0 i)%R : DataArray)
                   else getvar u "ap");
       let p : DataArray := fun i => (ap i + b i * ps i)%R in
       let klev := length (default [] (ds_lev u)) in
       (* [p.isel(lev=0)] needs a level, and [z.assign_coords(lev=p.lev)] a
          [z] that has levels, which it gets in the loop *)
       if (klev =? 0)%nat then raise IndexError
       else
         let z := hypsometric_heights klev tv p ps in
         if (klev =? 1)%nat
         then raise (ValueError "cannot add coordinates with new dimensions")
         else mret (concat_lev z, Some (t, q, p), esgf_params)
     else
       let a := lev_array u in
       u_b ← liftR (getvar u "b");
       u_orog ← liftR (getvar u "orog");
       let z : DataArray := fun i => (a i + (u_b i - 1) * u_orog i)%R in
       mret (z, None, esgf_params));
  let ds := u in
  let ds := setitem "wnd" wspd ds in
  let ds := setitem "z" z ds in
  v_va ← liftR (getvar v "va");
  let ds := setitem "va" v_va ds in
  match t_q_p with
  | None => raise (UnboundLocalError "t")
  | Some (t, q, p) =>
      t_ta ← liftR (getvar t "ta");
      let ds := setitem "ta" t_ta ds in
      q_hus ← liftR (getvar q "hus");
      let ds := setitem "hus" q_hus ds in
      let ds := setitem "pa" p ds in
      let ds := prune ["ua"; "va"; "wnd"; "z"; "ta"; "hus"; "pa"] ds in
      let attr :=
        <["variables" := VList ["wind speed lvl"; "z"; "ua"; "va"; "ta"; "hus"; "pa"]]>
          esgf_params in
      attr ← liftR (pop attr "variable");
      mret (set_attrs attr ds)
  end.

Definition get_data_surface (w : World) (esgf_params_all : dict) (cutout : Cutout)
    (retrieval_params : RetrievalParams) : M Dataset :=
  source_id ← liftR (getitem esgf_params_all "source_id");
  variant_label ← liftR (getitem esgf_params_all "variant_label");
  experiment_id ← liftR (getitem esgf_params_all "experiment_id");
  project ← liftR (getitem esgf_params_all "project");
  frequency ← liftR (getitem esgf_params_all "frequency_temp");
  let esgf_params : dict :=
    <["frequency" := frequency]> (<["project" := project]>
    (<["experiment_id" := experiment_id]> (<["variant_label" := variant_label]>
    (<["source_id" := source_id]> ∅)))) in
  let times := coords_time cutout in
  first ← liftR (PyStr.item times 0);
  let time_start := truncate_to_hour first in
  last ← liftR (PyStr.last_item times);
  let time_end := truncate_to_hour last in
  '(dtas, esgf_params) ← retrieve_data w esgf_params times ["tas"] retrieval_params;
  tas ← liftR (_rename_and_fix_coords w cutout dtas);
  tas ← liftR (sel_cutout None time_start time_end cutout tas);
  '(dqs, esgf_params) ← retrieve_data w esgf_params times ["huss"] retrieval_params;
  qs ← liftR (_rename_and_fix_coords w cutout dqs);
  qs ← liftR (sel_cutout None time_start time_end cutout qs);
  '(dps, esgf_params) ← retrieve_data w esgf_params times ["ps"] retrieval_params;
  ps ← liftR (_rename_and_fix_coords w cutout dps);
  ps ← liftR (sel_cutout None time_start time_end cutout ps);
  let ds := tas in
  ds ← liftR (rename_var "tas" "temperature" ds);
  tas_tas ← liftR (getvar tas "tas");
  let ds := setitem "temperature" tas_tas ds in
  ps_ps ← liftR (getvar ps "ps");
  let ds := setitem "pressure" ps_ps ds in
  qs_huss ← liftR (getvar qs "huss");
  let ds := setitem "humidity" qs_huss ds in
  ds ← liftR (drop_scalar "height" ds);
  let ds := prune ["temperature"; "humidity"; "pressure"] ds in
  let attr := <["variables" := VList ["temperature"; "humidity"; "pressure"]]> esgf_params in
  attr ← liftR (pop attr "variable");
  mret (set_attrs attr ds).

Definition get_data_wind10m (w : World) (esgf_params_all : dict) (cutout : Cutout)
    (retrieval_params : RetrievalParams) : M Dataset :=
  source_id ← liftR (getitem esgf_params_all "source_id");
  variant_label ← liftR (getitem esgf_params_all "variant_label");
  experiment_id ← liftR (getitem esgf_params_all "experiment_id");
  project ← liftR (getitem esgf_params_all "project");
  frequency ← liftR (getitem esgf_params_all "frequency_wnd10m");
  let esgf_params : dict :=
    <["frequency" := frequency]> (<["project" := project]>
    (<["experiment_id" := experiment_id]> (<["variant_label" := variant_label]>
    (<["source_id" := source_id]> ∅)))) in
  let times := coords_time cutout in
  first ← liftR (PyStr.item times 0);
  let time_start := truncate_to_hour first in
  last ← liftR (PyStr.last_item times);
  let time_end := truncate_to_hour last in
  '(duas, esgf_params) ← retrieve_data w esgf_params times ["uas"] retrieval_params;
  uas ← liftR (_rename_and_fix_coords w cutout duas);
  uas ← liftR (sel_cutout None time_start time_end cutout uas);
  '(dvas, esgf_params) ← retrieve_data w esgf_params times ["vas"] retrieval_params;
  vas ← liftR (_rename_and_fix_coords w cutout dvas);
  vas ← liftR (sel_cutout None time_start time_end cutout vas);
  uas_uas ← liftR (getvar uas "uas");
  vas_vas ← liftR (getvar vas "vas");
  let wnd10m : DataArray :=
    fun i => sqrt (uas_uas i * uas_uas i + vas_vas i * vas_vas i) in
  let ds := uas in
  ds ← liftR (rename_var "uas" "ua10m" ds);
  let ds := setitem "va10m" vas_vas ds in
  let ds := setitem "wnd10m" wnd10m ds in
  ds ← liftR (drop_scalar "height" ds);
  let ds := prune ["va10m"; "ua10m"; "wnd10m"] ds in
  let attr := <["variables" := VList ["ua10m"; "va10m"; "wnd10m"]]> esgf_params in
  attr ← liftR (pop attr "variable");
  mret (set_attrs attr ds).

(** ** The dispatcher *)

(** The functions of the module that [get_data] looks up by name; no other
    name of the module starts with [get_data_] or [sanitize_]. *)
Inductive Global :=
  | Calculator (f : World → dict → Cutout → RetrievalParams → M Dataset)
  | Sanitizer (f : Dataset → Res Dataset).

Definition globals : gmap string Global :=
  {[ "get_data_influx" := Calculator get_data_influx;
     "sanitize_inflow" := Sanitizer sanitize_inflow;
     "get_data_wind" := Calculator get_data_wind;
     "get_data_surface" := Calculator get_data_surface;
     "get_data_wind10m" := Calculator get_data_wind10m ]}.

(** The cadence table of lines 494 to 507. *)
Definition cadence_frequency (dt : string) : Res string :=
  if String.eqb dt "H" then Ok "h"
  else if String.eqb dt "3H" then Ok "3hr"
  else if String.eqb dt "6H" then Ok "6hr"
  else if String.eqb dt "D" then Ok "day"
  else if String.eqb dt "M" then Ok "mon"
  else if String.eqb dt "Y" then Ok "year"
  else Err (ValueError (dt +:+ " not valid time frequency in CMIP")).

(** Lines 493 to 509: the frequency that [get_data] settles on. *)
Definition retrieval_frequency (esgf_params : dict) (cutout : Cutout) : Res PyVal :=
  match get_or_none esgf_params "frequency" with
  | VNone => freq ← cadence_frequency (dt cutout); Ok (VStr freq)
  | freq => Ok freq
  end.

(** [esgf_params[key] = value] on the dict of the cutout *)
Definition setitem_esgf_params (key : string) (value : PyVal) : M unit :=
  fun s => (Ok tt, mkState (insert key value <$> esgf_params_of_cutout s) (trace s)).

(** [sanitize] is [creation_parameters.get("sanitize", True)].  The local
    [esgf_params] is an alias of the dict of the cutout, so the write of
    line 510 goes to the state; the calculator only reads its first
    argument and is handed the content of the dict after the write. *)
Definition get_data (w : World) (cutout : Cutout) (feature : string) (tmpdir : string)
    (lock : option Lock) (sanitize : bool) : M Dataset :=
  fun s =>
  match esgf_params_of_cutout s with
  | None => raise (ValueError "ESGF search parameters not provided") s
  | Some esgf_params =>
      (freq ← liftR (retrieval_frequency esgf_params cutout);
       _ ← setitem_esgf_params "frequency" freq;
       let esgf_params := <["frequency" := freq]> esgf_params in
       let retrieval_params := mkRetrievalParams tmpdir lock in
       match globals !! ("get_data_" +:+ feature) with
       | None => raise (TypeError "'NoneType' object is not callable")
       | Some (Sanitizer _) => raise (TypeError "got an unexpected keyword argument")
       | Some (Calculator func) =>
           ds ← func w esgf_params cutout retrieval_params;
           match globals !! ("sanitize_" +:+ feature) with
           | Some sanitize_func =>
               if sanitize then
                 match sanitize_func with
                 | Sanitizer sanitize_func => liftR (sanitize_func ds)
                 | Calculator _ => raise (TypeError "missing required positional arguments")
                 end
               else mret ds
           | None => mret ds
           end
       end) s
  end.

(** * The vocabulary of the properties, and worlds to run the program in *)

(** ** Tokens of the form [YYYYMMDD-YYYYMMDD] *)

(** A string of decimal digits. *)
Definition all_digits (s : string) : Prop :=
  Forall (fun a => is_Some (PyStr.digit_of a)) (String.list_ascii_of_string s).

Definition digit_char (d : nat) : ascii := ascii_of_nat (48 + d).
Arguments digit_char : simpl never.

Definition free_of (c : ascii) (s : string) : Prop :=
  Forall (fun a => a ≠ c) (String.list_ascii_of_string s).

(** A year written with four digits, and its value *)
Record Year4 := mkYear4 { y1 : nat; y2 : nat; y3 : nat; y4 : nat }.

Definition year4_ok (y : Year4) : Prop :=
  (y1 y < 10 ∧ y2 y < 10 ∧ y3 y < 10 ∧ y4 y < 10)%nat.

Definition year4 (y : Year4) : string :=
  String (digit_char (y1 y))
    (String (digit_char (y2 y))
       (String (digit_char (y3 y))
          (String (digit_char (y4 y)) EmptyString))).

Definition year_value (y : Year4) : Z :=
  1000 * Z.of_nat (y1 y) + 100 * Z.of_nat (y2 y) + 10 * Z.of_nat (y3 y) + Z.of_nat (y4 y).

(** ** Longitude axes *)






(** ** Columns of air *)

Definition zero_layer : DataArray := fun _ => 0%R.

Definition layer_step (tv p : DataArray) (acc : list DataArray * DataArray) (k : nat)
  : list DataArray * DataArray :=
  let '(z, z0) := acc in
  let z1 := next_layer tv p z0 k in (z ++ [z1], z1).

(** C5 as worded: positive virtual temperatures and strictly decreasing
    pressures, with nothing said of the sign of the pressures. *)
Definition heights_increase_as_stated (klev : nat) (tv p ps : DataArray) (i : Index) : Prop :=
  (∀ k, (k < klev)%nat → (0 < isel1 DLev k tv i)%R) →
  (∀ k, (S k < klev)%nat → (isel1 DLev (S k) p i < isel1 DLev k p i)%R) →
  ∀ j k, (j < k < klev)%nat →
    (nth j (hypsometric_heights klev tv p ps) zero_layer i
     < nth k (hypsometric_heights klev tv p ps) zero_layer i)%R.

Definition tv_one : DataArray := fun _ => 1%R.
Definition p_negative : DataArray := fun i => (- (1 + INR (i_lev i)))%R.
Definition ps_negative : DataArray := fun _ => (-1)%R.

Definition tv_example : DataArray := fun _ => 280%R.
Definition p_example : DataArray := fun i => (100000 - 5000 * INR (i_lev i))%R.
Definition ps_example : DataArray := fun _ => 101325%R.

(** ** Traces of the retrieval, and what a computation guarantees *)

Definition is_open (e : Event) : bool :=
  match e with EOpen _ => true | _ => false end.

(** The number of [open_mfdataset] calls among some events *)
Definition opens (events : list Event) : nat := length (filter is_open events).

(** What a retrieval does while it holds the lock, or has none to hold:
    queries of the catalog with [freq] in the frequency field, second tries
    with [freq + "Pt"], and openings of files. *)
Definition retrieval_event (freq : option PyVal) (e : Event) : Prop :=
  match e with
  | ESearch query => query !! "frequency" = freq
  | EConstrain query =>
      ∃ f, freq = Some (VStr f) ∧ query !! "frequency" = Some (VStr (f +:+ "Pt"))
  | EOpen _ => True
  | EAcquire | ERelease => False
  end.

(** The events of a [with lock:] block *)
Definition guarded (lock : option Lock) (body : list Event) : list Event :=
  match lock with
  | Some _ => EAcquire :: body ++ [ERelease]
  | None => body
  end.

(** A run of retrievals, each in a block of its own that holds the lock
    from its first event to its last and opens [n] datasets at most. *)
Inductive serialized (lock : option Lock) (freq : option PyVal) (n : nat)
  : list Event → Prop :=
  | serialized_nil : serialized lock freq n []
  | serialized_block body rest :
      Forall (retrieval_event freq) body → (opens body ≤ n)%nat →
      serialized lock freq n rest →
      serialized lock freq n (guarded lock body ++ rest).

(** [runs m T Q]: from any state, [m] leaves the dict of the cutout as it
    is, adds to the trace events that satisfy [T], and when it returns, what
    it returns satisfies [Q]. *)
Definition runs {A} (m : M A) (T : list Event → Prop) (Q : A → Prop) : Prop :=
  ∀ s, esgf_params_of_cutout (snd (m s)) = esgf_params_of_cutout s ∧
       ∃ events, trace (snd (m s)) = trace s ++ events ∧ T events ∧
                 ∀ a, fst (m s) = Ok a → Q a.

(** What happens inside one [with lock:] block *)
Definition body_ok (freq : option PyVal) (n : nat) (events : list Event) : Prop :=
  Forall (retrieval_event freq) events ∧ (opens events ≤ n)%nat.

(** [esgf_params] after the loop over [variables] *)
Definition with_variables (esgf_params : dict) (variables : list string) : dict :=
  fold_left (fun d variable => <["variable" := VStr variable]> d) variables esgf_params.

(** The attributes that a calculator leaves on its dataset: the list of
    variables and the query parameters, without the key [variable]. *)
Definition provenance (esgf_params_all : dict) (frequency_key : string) (table : bool)
    (variables : list string) (a : dict) : Prop :=
  a !! "variables" = Some (VList variables) ∧
  a !! "variable" = None ∧
  a !! "frequency" = esgf_params_all !! frequency_key ∧
  a !! "source_id" = esgf_params_all !! "source_id" ∧
  a !! "variant_label" = esgf_params_all !! "variant_label" ∧
  a !! "experiment_id" = esgf_params_all !! "experiment_id" ∧
  a !! "project" = esgf_params_all !! "project" ∧
  a !! "table_id" = (if table then esgf_params_all !! "table_id_wind" else None) ∧
  dom a ⊆ {[ "variables"; "frequency"; "source_id"; "variant_label";
             "experiment_id"; "project"; "table_id" ]}.

(** ** A small world to run the program in *)

Definition example_url (variable : string) : string :=
  "http://esgf.example/dodsC/" +:+ variable
  +:+ "_3hr_MODEL_ssp585_r1i1p1f1_gn_201501010130-201512312230.nc".

(** Every query is answered by one dataset record with one file. *)
Definition example_catalog (query : dict) : list (list (option string)) :=
  match query !! "variable" with
  | Some (VStr variable) => [[Some (example_url variable)]]
  | _ => []
  end.

Definition example_stamps : list Timestamp :=
  [mkTimestamp 2015 1 1 1 30; mkTimestamp 2015 1 1 4 30].

(** A field that grows eastward from [offset]. *)
Definition example_field (offset : R) : DataArray :=
  fun i => (INR (i_x i) + offset)%R.

Definition example_dataset (lev : option (list Q)) (scalars : gset string)
    (vars : gmap string DataArray) : Dataset :=
  mkDataset (Datetime64 example_stamps) lev [40%Q; 50%Q] [0%Q; 350%Q] LonLat scalars vars ∅.

Definition sigma_levels : option (list Q) := Some [1%Q; 0.95%Q; 0.9%Q].
Definition height_levels : option (list Q) := Some [20%Q; 53%Q; 100%Q; 160%Q; 233%Q].

(** The files of a model on hybrid sigma levels. *)
Definition example_files : list (string * Dataset) :=
  [ ("rsds", example_dataset None ∅
               {[ "rsds" := example_field (-1); "time_bnds" := example_field 0 ]});
    ("rsus", example_dataset None ∅ {[ "rsus" := example_field 0 ]});
    ("ua", example_dataset sigma_levels ∅
             {[ "ua" := example_field 3; "ps" := example_field 101325;
                "b" := example_field 0; "ap" := example_field 0;
                "orog" := example_field 0 ]});
    ("va", example_dataset sigma_levels ∅ {[ "va" := example_field 4 ]});
    ("ta", example_dataset sigma_levels ∅
             {[ "ta" := example_field 280; "ps" := example_field 101325 ]});
    ("hus", example_dataset sigma_levels ∅ {[ "hus" := example_field 0 ]});
    ("tas", example_dataset None {[ "height" ]} {[ "tas" := example_field 280 ]});
    ("huss", example_dataset None {[ "height" ]} {[ "huss" := example_field 0 ]});
    ("ps", example_dataset None ∅ {[ "ps" := example_field 101325 ]});
    ("uas", example_dataset None {[ "height" ]} {[ "uas" := example_field 3 ]});
    ("vas", example_dataset None {[ "height" ]} {[ "vas" := example_field 4 ]}) ].

(** The wind files of a model on height levels: no surface pressure. *)
Definition height_level_files : list (string * Dataset) :=
  [ ("ua", example_dataset height_levels ∅
             {[ "ua" := example_field 3; "b" := example_field 0;
                "orog" := example_field 0 ]});
    ("va", example_dataset height_levels ∅ {[ "va" := example_field 4 ]}) ].

Fixpoint open_from (table : list (string * Dataset)) (url : string) : Res Dataset :=
  match table with
  | [] => Err (OSError "no such file")
  | (variable, ds) :: rest =>
      if String.eqb url (example_url variable) then Ok ds else open_from rest url
  end.

Definition example_open (table : list (string * Dataset)) (files : list string)
  : Res Dataset :=
  match files with
  | [url] => open_from table url
  | _ => Err (OSError "no files to open")
  end.

Definition example_world : World :=
  mkWorld example_catalog (example_open example_files)
          (fun stamps _ => (stamps, fun a => a)) (fun _ stamps => Ok stamps).

Definition height_level_world : World :=
  mkWorld example_catalog (example_open height_level_files)
          (fun stamps _ => (stamps, fun a => a)) (fun _ stamps => Ok stamps).

Definition example_cutout : Cutout :=
  mkCutout "H" [mkTimestamp 2015 1 1 0 0; mkTimestamp 2015 1 1 3 0]
           ((-20)%Q, 30%Q, 20%Q, 60%Q).

Definition example_params : dict :=
  {[ "source_id" := VStr "MODEL"; "variant_label" := VStr "r1i1p1f1";
     "experiment_id" := VStr "ssp585"; "project" := VStr "CMIP6";
     "frequency_solar" := VStr "3hr"; "frequency_wind" := VStr "6hr";
     "table_id_wind" := VStr "6hrLev"; "frequency_temp" := VStr "3hr";
     "frequency_wnd10m" := VStr "3hr" ]}.

Definition example_state : State := mkState (Some example_params) [].

(** The first query that the calculator of [influx] sends. *)
Definition example_query : dict :=
  <["variable" := VStr "rsds"]>
    (<["frequency" := VStr "3hr"]> (<["project" := VStr "CMIP6"]>
    (<["experiment_id" := VStr "ssp585"]> (<["variant_label" := VStr "r1i1p1f1"]>
    (<["source_id" := VStr "MODEL"]> ∅))))).

(** ** The claims as the specification words them *)

(** The text that an exception carries *)
Definition message (e : PyErr) : string :=
  match e with
  | ValueError msg | TypeError msg | OSError msg => msg
  | KeyError name | AttributeError name | UnboundLocalError name => name
  | IndexError => "index out of range"
  end.

(** The key of [esgf_params] that the calculator of a feature reads its
    frequency from *)
Definition frequency_key (feature : string) : string :=
  if String.eqb feature "influx" then "frequency_solar"
  else if String.eqb feature "wind" then "frequency_wind"
  else if String.eqb feature "surface" then "frequency_temp"
  else "frequency_wnd10m".

(** The list that the calculator of a feature records under [variables] *)
Definition recorded_variables (feature : string) : list string :=
  if String.eqb feature "wind"
  then ["wind speed lvl"; "z"; "ua"; "va"; "ta"; "hus"; "pa"]
  else default [] (features !! feature).

(** The cadence table *)
Definition cadence_table : list (string * string) :=
  [("H", "h"); ("3H", "3hr"); ("6H", "6hr"); ("D", "day"); ("M", "mon"); ("Y", "year")].

Definition is_lock_event (e : Event) : Prop := e = EAcquire ∨ e = ERelease.

(** One acquisition from the first event to the last *)
Definition one_acquisition (events : list Event) : Prop :=
  ∃ body, events = EAcquire :: body ++ [ERelease] ∧ Forall (fun e => ¬ is_lock_event e) body.

Definition is_acquire (e : Event) : bool :=
  match e with EAcquire => true | _ => false end.

Definition acquisitions (events : list Event) : nat := length (filter is_acquire events).

(** C2 as worded: an unregistered feature fails with a message that names it,
    before anything is retrieved. *)
Definition unregistered_feature_named (w : World) (cutout : Cutout) (feature tmpdir : string)
    (lock : option Lock) (sanitize : bool) (s : State) : Prop :=
  feature ∉ dom features →
  ∃ e, fst (get_data w cutout feature tmpdir lock sanitize s) = Err e ∧
       PyStr.contains feature (message e) = true ∧
       trace (snd (get_data w cutout feature tmpdir lock sanitize s)) = trace s.

(** C3 as worded: the catalog is queried with the frequency of the
    dispatcher. *)
Definition searches_use_dispatcher_frequency (w : World) (cutout : Cutout)
    (feature tmpdir : string) (lock : option Lock) (sanitize : bool) (s : State) : Prop :=
  ∀ d freq query,
    esgf_params_of_cutout s = Some d → retrieval_frequency d cutout = Ok freq →
    ESearch query ∈ trace (snd (get_data w cutout feature tmpdir lock sanitize s)) →
    query !! "frequency" = Some freq.

(** C6 as worded: with a lock, the retrievals of a feature run under one
    acquisition. *)
Definition retrieval_under_one_acquisition (w : World) (cutout : Cutout)
    (feature tmpdir : string) (l : Lock) (sanitize : bool) (s : State) : Prop :=
  ∀ events,
    trace (snd (get_data w cutout feature tmpdir (Some l) sanitize s)) = trace s ++ events →
    events ≠ [] → one_acquisition events.

(** ** File names *)

(** An ASCII letter *)
Definition is_letter (c : ascii) : Prop :=
  (65 ≤ nat_of_ascii c ≤ 90 ∨ 97 ≤ nat_of_ascii c ≤ 122)%nat.

(** The name of a file of model output: what precedes the last underscore,
    and the token [YYYY..-YYYY..] of the time range with its extension. *)
Record FileName := mkFileName {
  fn_base : string;
  fn_start : Year4; fn_start_rest : string;
  fn_end : Year4; fn_end_rest : string;
  fn_ext : string
}.

Definition fn_token (f : FileName) : string :=
  year4 (fn_start f) +:+ fn_start_rest f +:+ "-"
  +:+ year4 (fn_end f) +:+ fn_end_rest f +:+ fn_ext f.

Definition fn_url (f : FileName) : string :=
  fn_base f +:+ String "_" (fn_token f).



Definition example_file_name : FileName :=
  mkFileName "http://esgf.example/dodsC/tas_3hr_MODEL_ssp585_r1i1p1f1_gn"
             (mkYear4 2 0 1 5) "01010130" (mkYear4 2 0 1 5) "12312230" ".nc".


(** ** Labels inside a slice *)



(** The dataset of [rsds] as the example world opens it, and as
    [normalize_lon] leaves it. *)
Definition rsds_dataset : Dataset :=
  example_dataset None ∅ {[ "rsds" := example_field (-1) ]}.

Definition rsds_normalized : Dataset :=
  mkDataset (Datetime64 example_stamps) None [40%Q; 50%Q] [(-10)%Q; 0%Q] LonLat ∅
            (take_along DX [1%nat; 0%nat] <$> {[ "rsds" := example_field (-1) ]}) ∅.


(** ** Fields to clip and columns to integrate *)

(** A dataset of radiation whose incoming part dips below zero in the first
    column. *)
Definition influx_dataset : Dataset :=
  mkDataset (Datetime64 example_stamps) None [40%Q; 50%Q] [(-10)%Q; 0%Q] XYLonLat ∅
            {[ "influx" := example_field (-1); "outflux" := example_field (-2) ]} ∅.

(** The height that the hypsometric equation gives to the pressure [p] in a
    column of temperature [T] over the surface pressure [ps]. *)
Definition isothermal_height (T p ps : R) : R :=
  (- (Rd / g) * T * ln (p / ps))%R.

(** ** What the calculators return *)

(** Two datasets on one grid *)
Definition same_grid (a b : Dataset) : Prop :=
  ds_time a = ds_time b ∧ ds_lev a = ds_lev b ∧ ds_lat a = ds_lat b ∧
  ds_lon a = ds_lon b ∧ ds_horiz a = ds_horiz b.

(** A dataset on the grid of a retrieved dataset whose coordinates were
    fixed and which was cut to the hours and the box of the cutout. *)
Definition cut_to (w : World) (cutout : Cutout) (levs : option (Q * Q)) (ds : Dataset) : Prop :=
  ∃ raw fixed selected t_first t_last,
    PyStr.item (coords_time cutout) 0 = Ok t_first ∧
    PyStr.last_item (coords_time cutout) = Ok t_last ∧
    _rename_and_fix_coords w cutout raw = Ok fixed ∧
    sel_cutout levs (truncate_to_hour t_first) (truncate_to_hour t_last) cutout fixed
    = Ok selected ∧
    same_grid ds selected.

(** The formulas of lines 168, 195 and 205. *)
Definition wind_speed (u v : DataArray) : DataArray :=
  fun i => sqrt (u i * u i + v i * v i).

Definition virtual_temperature (ta hus : DataArray) : DataArray :=
  fun i => (ta i * ((hus i + eps) / (eps * (1.0 + hus i))))%R.

Definition level_pressure (ap b ps : DataArray) : DataArray :=
  fun i => (ap i + b i * ps i)%R.

(** The levels that the calculator of [wind] keeps of sigma-level data. *)
Definition sigma_slice : option (Q * Q) := Some (1%Q, 0.9%Q).

Definition wind_result (w : World) (cutout : Cutout) (ds : Dataset) : Prop :=
  cut_to w cutout sigma_slice ds ∧
  ∃ (ua va ta hus ap b ps : DataArray) (levels : list Q),
    ds_lev ds = Some levels ∧ (2 ≤ length levels)%nat ∧
    data_vars ds !! "ua" = Some ua ∧ data_vars ds !! "va" = Some va ∧
    data_vars ds !! "wnd" = Some (wind_speed ua va) ∧
    data_vars ds !! "ta" = Some ta ∧ data_vars ds !! "hus" = Some hus ∧
    data_vars ds !! "pa" = Some (level_pressure ap b ps) ∧
    data_vars ds !! "z"
    = Some (concat_lev (hypsometric_heights (length levels) (virtual_temperature ta hus)
                                            (level_pressure ap b ps) ps)).

Definition wind10m_result (w : World) (cutout : Cutout) (ds : Dataset) : Prop :=
  cut_to w cutout None ds ∧
  ∃ ua va : DataArray,
    data_vars ds !! "ua10m" = Some ua ∧ data_vars ds !! "va10m" = Some va ∧
    data_vars ds !! "wnd10m" = Some (wind_speed ua va).

(** The keys of [esgf_params] that the calculator of a feature reads, in
    the order in which it reads them. *)
Definition required_keys (feature : string) : list string :=
  ["source_id"; "variant_label"; "experiment_id"; "project"; frequency_key feature]
  ++ (if String.eqb feature "wind" then ["table_id_wind"] else []).

(** The example cutout without a time *)
Definition timeless_cutout : Cutout :=
  mkCutout "H" [] ((-20)%Q, 30%Q, 20%Q, 60%Q).

(** ** Runs of the example *)


(** The parameters of the example without the frequency of the radiation. *)
Definition params_without_solar : dict := delete "frequency_solar" example_params.

(** ** Queries *)

(** The identifiers of a model run *)
Definition identifiers : list string :=
  ["source_id"; "variant_label"; "experiment_id"; "project"].

(** The keys of the queries of a feature *)
Definition query_keys (feature : string) : gset string :=
  {[ "source_id"; "variant_label"; "experiment_id"; "project"; "frequency"; "variable" ]}
  ∪ (if String.eqb feature "wind" then {[ "table_id" ]} else ∅).

(** An event that, if it is a query of the catalog, has the keys [K] and
    the identifiers of [d]. *)
Definition query_ok (d : dict) (K : gset string) (e : Event) : Prop :=
  match e with
  | ESearch q | EConstrain q => dom q = K ∧ ∀ k, k ∈ identifiers → q !! k = d !! k
  | _ => True
  end.

(** A locator whose last token covers one of the years *)
Definition file_requested (years : list Z) (url : string) : Prop :=
  ∃ token, PyStr.last_item (PyStr.split "_" url) = Ok token ∧
           _year_in_file token years = Ok true.

(** An event that, if it is an opening of files, opens files of the years
    only. *)
Definition open_ok (years : list Z) (e : Event) : Prop :=
  match e with
  | EOpen files => Forall (file_requested years) files
  | _ => True
  end.

Definition event_ok (d : dict) (K : gset string) (years : list Z) (e : Event) : Prop :=
  query_ok d K e ∧ open_ok years e.

(** A dict that [retrieve_data] turns into such queries *)
Definition good_query (d : dict) (K : gset string) (q : dict) : Prop :=
  dom q ∪ {[ "variable" ]} = K ∧ ∀ k, k ∈ identifiers → q !! k = d !! k.



(** ** Where the fields come from *)




(** * Properties *)

(** ** The temporal coverage filter *)

Lemma digit_of_digit_char d : (d < 10)%nat → PyStr.digit_of (digit_char d) = Some (Z.of_nat d).
Proof.
  intros H. do 10 (destruct d as [|d]; [reflexivity|]). lia.
Qed.

Lemma digit_not_sep a c :
  is_Some (PyStr.digit_of a) → (nat_of_ascii c < 48 ∨ 57 < nat_of_ascii c)%nat → Ascii.eqb a c = false.
Proof.
  intros [d Hd] Hc. apply Ascii.eqb_neq. intros ->.
  unfold PyStr.digit_of in Hd.
  destruct (48 <=? nat_of_ascii c)%nat eqn:E1; destruct (nat_of_ascii c <=? 57)%nat eqn:E2;
    simpl in Hd; try discriminate.
  apply Nat.leb_le in E1, E2. lia.
Qed.

Lemma split_free_then c s rest :
  free_of c s → PyStr.split c (s +:+ String c rest) = s :: PyStr.split c rest.
Proof.
  intros Hs. induction s as [|a s IH]; simpl.
  - by rewrite Ascii.eqb_refl.
  - unfold free_of in Hs. simpl in Hs. apply Forall_cons in Hs as [Ha Hs].
    apply Ascii.eqb_neq in Ha. rewrite Ha, (IH Hs). done.
Qed.

Lemma split_free c s : free_of c s → PyStr.split c s = [s].
Proof.
  intros Hs. induction s as [|a s IH]; simpl; [done|].
  unfold free_of in Hs. simpl in Hs. apply Forall_cons in Hs as [Ha Hs].
  apply Ascii.eqb_neq in Ha. by rewrite Ha, (IH Hs).
Qed.



Lemma all_digits_free c s :
  all_digits s → (nat_of_ascii c < 48 ∨ 57 < nat_of_ascii c)%nat → free_of c s.
Proof.
  unfold all_digits, free_of. intros Hs Hc. eapply Forall_impl; [exact Hs|].
  intros a Ha. simpl in Ha. apply Ascii.eqb_neq. by apply digit_not_sep.
Qed.

Lemma all_digits_year4 y : year4_ok y → all_digits (year4 y).
Proof.
  intros (H1 & H2 & H3 & H4). unfold all_digits, year4. simpl.
  repeat constructor; rewrite digit_of_digit_char; eauto.
Qed.

Lemma prefix4_app a b c d rest :
  PyStr.prefix 4 (String a (String b (String c (String d EmptyString))) +:+ rest)
  = String a (String b (String c (String d EmptyString))).
Proof. reflexivity. Qed.

Lemma int_year4 y rest :
  year4_ok y → PyStr.int (PyStr.prefix 4 (year4 y +:+ rest)) = Ok (year_value y).
Proof.
  intros (H1 & H2 & H3 & H4). unfold year4. rewrite prefix4_app. unfold PyStr.int.
  cbn [PyStr.int_digits].
  rewrite (digit_of_digit_char _ H1). cbn [PyStr.int_digits].
  rewrite (digit_of_digit_char _ H2). cbn [PyStr.int_digits].
  rewrite (digit_of_digit_char _ H3). cbn [PyStr.int_digits].
  rewrite (digit_of_digit_char _ H4). cbn [PyStr.int_digits].
  f_equal. unfold year_value. lia.
Qed.




Lemma string_app_cons x (a b : string) : String x a +:+ b = String x (a +:+ b).
Proof. reflexivity. Qed.

Lemma string_app_assoc (a b c : string) : (a +:+ b) +:+ c = a +:+ (b +:+ c).
Proof.
  induction a as [|x a IH]; [reflexivity|].
  rewrite !string_app_cons. by f_equal.
Qed.

Lemma string_app_empty (a : string) : a +:+ "" = a.
Proof.
  induction a as [|x a IH]; [reflexivity|].
  rewrite string_app_cons. by f_equal.
Qed.

Lemma Res_bind_Ok {A B} (a : A) (k : A → Res B) : (Ok a ≫= k) = k a.
Proof. reflexivity. Qed.

Lemma item_0 {A} (a : A) l : PyStr.item (a :: l) 0 = Ok a.
Proof. reflexivity. Qed.





(** ** Longitudes *)








(** ** The stable sort *)

Section sort_by.
Context {A : Type} (key : A → Q).

Lemma insert_by_Permutation a l : insert_by key a l ≡ₚ a :: l.
Proof.
  induction l as [|b l IH]; simpl; [done|].
  destruct (Qle_bool (key a) (key b)); [done|].
  rewrite IH. apply Permutation_swap.
Qed.

Lemma sort_by_Permutation l : sort_by key l ≡ₚ l.
Proof.
  induction l as [|a l IH]; simpl; [done|].
  rewrite insert_by_Permutation. by rewrite IH.
Qed.





End sort_by.













(** ** The hypsometric integration *)

Lemma layers_fold tv p n : ∀ start z z0,
  length z = start → (1 ≤ start)%nat → nth (start - 1) z zero_layer = z0 →
  let r := fold_left (layer_step tv p) (seq start n) (z, z0) in
  length (fst r) = (start + n)%nat ∧
  (∀ k, (k < start)%nat → nth k (fst r) zero_layer = nth k z zero_layer) ∧
  (∀ k, (start ≤ k < start + n)%nat →
     nth k (fst r) zero_layer = next_layer tv p (nth (k - 1) (fst r) zero_layer) k).
Proof.
  induction n as [|n IH]; intros start z z0 Hlen Hstart Hlast; simpl.
  - split; [lia|]. split; [done|]. intros k Hk. lia.
  - destruct (IH (S start) (z ++ [next_layer tv p z0 start]) (next_layer tv p z0 start))
      as (Hl & Hpre & Hrec).
    + rewrite length_app. simpl. lia.
    + lia.
    + replace (S start - 1)%nat with (length z) by lia.
      rewrite app_nth2 by lia. by rewrite Nat.sub_diag.
    + split; [simpl in *; lia|]. split.
      * intros k Hk. rewrite Hpre by lia. rewrite app_nth1 by lia. done.
      * intros k Hk. destruct (decide (k = start)) as [->|Hne].
        -- rewrite !Hpre by lia. rewrite app_nth2 by lia.
           rewrite Hlen, Nat.sub_diag. simpl.
           rewrite app_nth1 by lia. by rewrite Hlast.
        -- apply Hrec. lia.
Qed.

Lemma hypsometric_heights_layers klev tv p ps :
  (1 ≤ klev)%nat →
  let z := hypsometric_heights klev tv p ps in
  length z = klev ∧
  nth 0 z zero_layer = surface_layer tv p ps ∧
  (∀ k, (1 ≤ k < klev)%nat →
     nth k z zero_layer = next_layer tv p (nth (k - 1) z zero_layer) k).
Proof.
  intros Hk. unfold hypsometric_heights.
  destruct (layers_fold tv p (klev - 1) 1 [surface_layer tv p ps] (surface_layer tv p ps))
    as (Hl & Hpre & Hrec); [done|done|done|].
  split; [simpl in *; unfold layer_step in Hl; lia|]. split.
  - apply (Hpre 0%nat). lia.
  - intros k Hk'. apply (Hrec k). lia.
Qed.

Lemma Rd_over_g_pos : (0 < Rd / g)%R.
Proof. unfold Rd, g. apply Rdiv_lt_0_compat; lra. Qed.

Lemma ln_ratio_neg (a b : R) : (0 < a)%R → (a < b)%R → (ln (a / b) < 0)%R.
Proof.
  intros Ha Hab. rewrite <- ln_1. apply ln_increasing.
  - apply Rdiv_lt_0_compat; lra.
  - apply Rmult_lt_reg_r with b; [lra|]. unfold Rdiv.
    rewrite Rmult_assoc, Rinv_l by lra. lra.
Qed.

(** One level up is strictly higher. *)
Lemma next_layer_higher tv p z0 k i :
  (0 < isel1 DLev k tv i)%R → (0 < isel1 DLev (k - 1) tv i)%R →
  (0 < isel1 DLev k p i)%R → (isel1 DLev k p i < isel1 DLev (k - 1) p i)%R →
  (z0 i < next_layer tv p z0 k i)%R.
Proof.
  intros Ht Ht' Hp Hpp. unfold next_layer.
  pose proof (ln_ratio_neg _ _ Hp Hpp) as Hln. pose proof Rd_over_g_pos as Hc.
  set (l := ln _) in *. set (c := (Rd / g)%R) in *.
  set (a := isel1 DLev k tv i) in *. set (b := isel1 DLev (k - 1) tv i) in *.
  assert (0 < c * 0.5 * (a + b))%R by (apply Rmult_lt_0_compat; [|lra]; lra).
  assert (c * 0.5 * (a + b) * l < 0)%R.
  { replace 0%R with (c * 0.5 * (a + b) * 0)%R by ring. apply Rmult_lt_compat_l; lra. }
  lra.
Qed.

(** C5 as worded fails on negative pressures: with pressures -1 and -2 the
    ratio of one level to the level below is 2, its logarithm is positive,
    and the height falls. *)
Lemma heights_decrease_under_negative_pressure :
  ¬ heights_increase_as_stated 2 tv_one p_negative ps_negative (mkIndex 0 0 0 0).
Proof.
  intros H. unfold heights_increase_as_stated in H.
  assert (H1 : ∀ k, (k < 2)%nat → (0 < isel1 DLev k tv_one (mkIndex 0 0 0 0))%R).
  { intros k _. unfold isel1, tv_one. lra. }
  assert (H2 : ∀ k, (S k < 2)%nat →
    (isel1 DLev (S k) p_negative (mkIndex 0 0 0 0) < isel1 DLev k p_negative (mkIndex 0 0 0 0))%R).
  { intros k Hk. assert (k = 0)%nat as -> by lia. unfold isel1, p_negative. simpl. lra. }
  specialize (H H1 H2 0%nat 1%nat ltac:(lia)).
  unfold hypsometric_heights in H. simpl in H.
  unfold next_layer, surface_layer, isel1, tv_one, p_negative, ps_negative in H. simpl in H.
  replace (- (1 + 0) / -1)%R with 1%R in H by (field; lra).
  replace (- (1 + 1) / - (1 + 0))%R with 2%R in H by (field; lra).
  rewrite ln_1 in H.
  pose proof ln_lt_2 as Hln. pose proof Rd_over_g_pos as Hc.
  set (c := (Rd / g)%R) in *. set (l := ln 2) in *.
  assert (0 < c * 0.5 * (1 + 1) * l)%R.
  { apply Rmult_lt_0_compat; [|lra]. lra. }
  lra.
Qed.

(** C5, amended: the heights follow the recurrence
    [z0 = -(Rd/g) Tv0 ln(p0/ps)],
    [zk = z(k-1) - (Rd/g) 0.5 (Tvk + Tv(k-1)) ln(pk/p(k-1))]
    with [Rd = 287.058] and [g = 9.80665], level after level from level 0;
    where the virtual temperatures are positive and the pressures, the one
    at the surface included, are positive (so that every logarithm is one of
    a positive number) and strictly decrease with the level, the heights
    strictly increase with the level. *)
Theorem hypsometric_heights_increasing (klev : nat) (tv p ps : DataArray) (i : Index) :
  (∀ k, (k < klev)%nat → (0 < isel1 DLev k tv i)%R) →
  (∀ k, (k < klev)%nat → (0 < isel1 DLev k p i)%R) →
  (0 < ps i)%R →
  (∀ k, (S k < klev)%nat → (isel1 DLev (S k) p i < isel1 DLev k p i)%R) →
  let z := fun k => nth k (hypsometric_heights klev tv p ps) zero_layer i in
  Rd = 287.058%R ∧ g = 9.80665%R ∧
  z 0%nat = (- (Rd / g) * isel1 DLev 0 tv i * ln (isel1 DLev 0 p i / ps i))%R ∧
  (∀ k, (1 ≤ k < klev)%nat →
     z k = (z (k - 1)%nat
            - (Rd / g) * 0.5 * (isel1 DLev k tv i + isel1 DLev (k - 1) tv i)
              * ln (isel1 DLev k p i / isel1 DLev (k - 1) p i))%R) ∧
  (∀ j k, (j < k < klev)%nat → (z j < z k)%R).
Proof.
  intros Htv Hpos _ Hdec z. split; [reflexivity|]. split; [reflexivity|].
  destruct (decide (klev = 0%nat)) as [->|Hk].
  { split; [reflexivity|]. split; intros; lia. }
  destruct (hypsometric_heights_layers klev tv p ps) as (Hlen & H0 & Hrec); [lia|].
  assert (Hstep : ∀ k, (1 ≤ k < klev)%nat →
            z k = next_layer tv p (nth (k - 1) (hypsometric_heights klev tv p ps) zero_layer) k i).
  { intros k Hk'. subst z. simpl. by rewrite (Hrec k Hk'). }
  split; [subst z; simpl; by rewrite H0|]. split.
  - intros k Hk'. rewrite (Hstep k Hk'). reflexivity.
  - assert (Hone : ∀ k, (1 ≤ k < klev)%nat → (z (k - 1)%nat < z k)%R).
    { intros k Hk'. rewrite (Hstep k Hk'). apply next_layer_higher.
      - apply Htv. lia.
      - apply Htv. lia.
      - apply Hpos. lia.
      - replace k with (S (k - 1)) at 1 by lia. apply Hdec. lia. }
    intros j k [Hjk Hkl]. induction k as [|k IH]; [lia|].
    specialize (Hone (S k) ltac:(lia)). replace (S k - 1)%nat with k in Hone by lia.
    destruct (decide (j = k)) as [->|Hne]; [done|].
    eapply Rlt_trans; [apply IH; lia|done].
Qed.

(** C5 on three levels at 1000, 950 and 900 hPa and 280 K. *)
Lemma hypsometric_heights_increasing_witness :
  (nth 0 (hypsometric_heights 3 tv_example p_example ps_example) zero_layer (mkIndex 0 0 0 0)
   < nth 2 (hypsometric_heights 3 tv_example p_example ps_example) zero_layer (mkIndex 0 0 0 0))%R.
Proof.
  refine (proj2 (proj2 (proj2 (proj2
    (hypsometric_heights_increasing 3 tv_example p_example ps_example (mkIndex 0 0 0 0)
       _ _ _ _)))) 0%nat 2%nat _).
  - intros k _. unfold isel1, tv_example. lra.
  - intros k Hk. unfold isel1, p_example. simpl.
    assert (INR k <= 2)%R by (replace 2%R with (INR 2) by (simpl; lra); apply le_INR; lia).
    lra.
  - unfold ps_example. lra.
  - intros k Hk. unfold isel1, p_example. simpl i_lev. rewrite S_INR. lra.
  - lia.
Defined.

(** ** The retrieval under the lock *)

Section runs.
Context (T : list Event → Prop).
Hypothesis T_nil : T [].
Hypothesis T_app : ∀ e1 e2, T e1 → T e2 → T (e1 ++ e2).

Lemma runs_ret {A} (a : A) (Q : A → Prop) : Q a → runs (mret a) T Q.
Proof.
  intros HQ s. split; [done|]. exists []. rewrite app_nil_r.
  split; [done|]. split; [done|]. intros a' [= <-]. done.
Qed.

Lemma runs_raise {A} (e : PyErr) (Q : A → Prop) : runs (raise e) T Q.
Proof.
  intros s. split; [done|]. exists []. rewrite app_nil_r.
  split; [done|]. split; [done|]. intros a' [=].
Qed.

Lemma runs_liftR {A} (r : Res A) : runs (liftR r) T (fun a => r = Ok a).
Proof.
  intros s. split; [done|]. exists []. rewrite app_nil_r.
  split; [done|]. split; [done|]. done.
Qed.

Lemma runs_bind {A B} (m : M A) (k : A → M B) (Q : A → Prop) (Q' : B → Prop) :
  runs m T Q → (∀ a, Q a → runs (k a) T Q') → runs (m ≫= k) T Q'.
Proof.
  intros Hm Hk s. destruct (Hm s) as (Hc & ev1 & Ht & HT & HQ).
  unfold mbind, M_bind. destruct (m s) as [[a|e] s1] eqn:E; simpl in *.
  - destruct (Hk a (HQ a eq_refl) s1) as (Hc2 & ev2 & Ht2 & HT2 & HQ2).
    split; [congruence|]. exists (ev1 ++ ev2).
    split; [rewrite Ht2, Ht; by rewrite app_assoc|]. split; [by apply T_app|done].
  - split; [done|]. exists ev1. split; [done|]. split; [done|]. intros b [=].
Qed.

Lemma runs_weaken {A} (m : M A) (Q Q' : A → Prop) :
  runs m T Q → (∀ a, Q a → Q' a) → runs m T Q'.
Proof.
  intros Hm HQ s. destruct (Hm s) as (Hc & ev & Ht & HT & H).
  split; [done|]. exists ev. split; [done|]. split; [done|]. intros a Ha. by apply HQ, H.
Qed.
End runs.

Lemma serialized_app lock freq n e1 e2 :
  serialized lock freq n e1 → serialized lock freq n e2 → serialized lock freq n (e1 ++ e2).
Proof.
  induction 1 as [|body rest Hb Ho Hr IH]; intros H2; [done|].
  rewrite <- app_assoc. constructor; auto.
Qed.

Lemma opens_app e1 e2 : opens (e1 ++ e2) = (opens e1 + opens e2)%nat.
Proof. unfold opens. by rewrite filter_app, length_app. Qed.

Lemma runs_bind_gen {A B} (m : M A) (k : A → M B) (T1 T2 T : list Event → Prop)
    (Q : A → Prop) (Q' : B → Prop) :
  runs m T1 Q → (∀ a, Q a → runs (k a) T2 Q') →
  (∀ e1, T1 e1 → T e1) → (∀ e1 e2, T1 e1 → T2 e2 → T (e1 ++ e2)) →
  runs (m ≫= k) T Q'.
Proof.
  intros Hm Hk H1 H12 s. destruct (Hm s) as (Hc & ev1 & Ht & HT & HQ).
  unfold mbind, M_bind. destruct (m s) as [[a|e] s1] eqn:E; simpl in *.
  - destruct (Hk a (HQ a eq_refl) s1) as (Hc2 & ev2 & Ht2 & HT2 & HQ2).
    split; [congruence|]. exists (ev1 ++ ev2).
    split; [rewrite Ht2, Ht; by rewrite app_assoc|]. split; [by apply H12|done].
  - split; [done|]. exists ev1. split; [done|]. split; [by apply H1|]. intros b [=].
Qed.

Lemma runs_events {A} (m : M A) (T T' : list Event → Prop) (Q : A → Prop) :
  runs m T Q → (∀ e, T e → T' e) → runs m T' Q.
Proof.
  intros Hm HT s. destruct (Hm s) as (Hc & ev & Ht & H & HQ).
  split; [done|]. exists ev. split; [done|]. split; [by apply HT|done].
Qed.

Lemma body_ok_nil freq n : body_ok freq n [].
Proof. split; [constructor|]. unfold opens. simpl. lia. Qed.

Lemma body_ok_app freq n1 n2 e1 e2 :
  body_ok freq n1 e1 → body_ok freq n2 e2 → body_ok freq (n1 + n2) (e1 ++ e2).
Proof.
  intros [H1 O1] [H2 O2]. split; [by apply Forall_app|]. rewrite opens_app. lia.
Qed.

Lemma body_ok_mono freq n1 n2 e : (n1 ≤ n2)%nat → body_ok freq n1 e → body_ok freq n2 e.
Proof. intros Hn [H O]. split; [done|lia]. Qed.

Lemma runs_emit (e : Event) (T : list Event → Prop) :
  T [e] → runs (emit e) T (fun _ => True).
Proof.
  intros HT s. split; [done|]. exists [e]. split; [done|]. split; [done|]. done.
Qed.

Lemma search_ESGF_runs w (esgf_params : dict) :
  runs (search_ESGF w esgf_params) (body_ok (esgf_params !! "frequency") 0) (fun _ => True).
Proof.
  intros s. unfold search_ESGF, mbind, M_bind, mret, M_ret, raise, emit. simpl.
  assert (H1 : body_ok (esgf_params !! "frequency") 0 [ESearch esgf_params]).
  { split; [repeat constructor|]. unfold opens. simpl. lia. }
  destruct (catalog w esgf_params) as [|latest rest] eqn:Ec; simpl.
  2:{ split; [done|]. eexists. split; [done|]. split; [exact H1|done]. }
  unfold liftR, getitem. destruct (esgf_params !! "frequency") as [v|] eqn:Ef; simpl.
  2:{ split; [done|]. eexists. split; [done|]. split; [exact H1|done]. }
  destruct v as [|f|l]; simpl.
  1,3: (split; [done|]; eexists; split; [done|]; split; [exact H1|done]).
  assert (H2 : body_ok (Some (VStr f)) 0
            [ESearch esgf_params;
             EConstrain (<["frequency" := VStr (f +:+ "Pt")]> esgf_params)]).
  { split; [|unfold opens; simpl; lia].
    constructor; [exact Ef|]. constructor; [|constructor].
    simpl. exists f. split; [done|]. apply lookup_insert_eq. }
  destruct (catalog w (<["frequency" := VStr (f +:+ "Pt")]> esgf_params))
    as [|latest rest]; simpl;
    (split; [done|]; eexists; split; [by rewrite <- app_assoc|]; split; [exact H2|done]).
Qed.

Lemma retrieve_variable_runs w years (esgf_params : dict) dsets variable :
  runs (retrieve_variable w years (esgf_params, dsets) variable)
       (body_ok (esgf_params !! "frequency") 1)
       (fun acc => fst acc = <["variable" := VStr variable]> esgf_params).
Proof.
  unfold retrieve_variable. set (freq := esgf_params !! "frequency").
  assert (Ef : (<["variable" := VStr variable]> esgf_params) !! "frequency" = freq)
    by (by rewrite lookup_insert_ne).
  eapply (runs_bind_gen _ _ (body_ok freq 0) (body_ok freq 1) (body_ok freq 1)).
  { eapply runs_events; [apply search_ESGF_runs|]. intros e. by rewrite Ef. }
  2:{ intros e. apply body_ok_mono. lia. }
  2:{ intros e1 e2 He1 He2. apply (body_ok_app _ 0 1); eassumption. }
  intros search_results _.
  eapply (runs_bind_gen _ _ (body_ok freq 0) (body_ok freq 1) (body_ok freq 1)).
  { apply runs_liftR. apply body_ok_nil. }
  2:{ intros e. apply body_ok_mono. lia. }
  2:{ intros e1 e2 He1 He2. apply (body_ok_app _ 0 1); eassumption. }
  intros files _.
  eapply (runs_bind_gen _ _ (body_ok freq 1) (body_ok freq 0) (body_ok freq 1)).
  { apply runs_emit. split; [repeat constructor|]. unfold opens. simpl. lia. }
  2:{ intros e. done. }
  2:{ intros e1 e2 He1 He2. apply (body_ok_app _ 1 0); eassumption. }
  intros _ _.
  eapply (runs_bind_gen _ _ (body_ok freq 0) (body_ok freq 0) (body_ok freq 0)).
  { apply runs_liftR. apply body_ok_nil. }
  2:{ intros e. done. }
  2:{ intros e1 e2 He1 He2. apply (body_ok_app _ 0 0); eassumption. }
  intros ds _. apply runs_ret; [apply body_ok_nil|done].
Qed.

Lemma for_each_retrieve_runs w years variables : ∀ (esgf_params : dict) dsets,
  runs (for_each (retrieve_variable w years) (esgf_params, dsets) variables)
       (body_ok (esgf_params !! "frequency") (length variables))
       (fun acc => fst acc = with_variables esgf_params variables).
Proof.
  induction variables as [|v variables IH]; intros esgf_params dsets; simpl.
  - apply runs_ret; [apply body_ok_nil|done].
  - eapply (runs_bind_gen _ _ (body_ok (esgf_params !! "frequency") 1)
                          (body_ok (esgf_params !! "frequency") (length variables))
                          (body_ok (esgf_params !! "frequency") (S (length variables)))).
    { apply retrieve_variable_runs. }
    2:{ intros e. apply body_ok_mono. lia. }
    2:{ intros e1 e2 He1 He2. apply (body_ok_app _ 1 (length variables)); eassumption. }
    intros [esgf_params' dsets'] E. simpl in E. subst esgf_params'.
    eapply runs_events; [eapply runs_weaken; [apply IH|]|].
    + intros acc ->. done.
    + intros e. by rewrite lookup_insert_ne.
Qed.

Lemma with_lock_runs {A} (lock : option Lock) (body : M A) T (Q : A → Prop) :
  runs body T Q →
  runs (with_lock lock body) (fun events => ∃ b, events = guarded lock b ∧ T b) Q.
Proof.
  intros Hb s. destruct lock as [l|]; simpl.
  - destruct (Hb (snd (emit EAcquire s))) as (Hc & ev & Ht & HT & HQ).
    destruct (body (snd (emit EAcquire s))) as [r s1] eqn:E. simpl in *.
    rewrite E. simpl. split; [done|]. exists (EAcquire :: ev ++ [ERelease]). split.
    + rewrite Ht. rewrite <- !app_assoc. done.
    + split; [eauto|done].
  - destruct (Hb s) as (Hc & ev & Ht & HT & HQ).
    split; [done|]. exists ev. split; [done|]. split; [eauto|done].
Qed.

Lemma retrieve_data_runs w (esgf_params : dict) times variables rp :
  runs (retrieve_data w esgf_params times variables rp)
       (fun events => ∃ b, events = guarded (lock rp) b ∧
                           body_ok (esgf_params !! "frequency") (length variables) b)
       (fun r => snd r = with_variables esgf_params variables ∧ attrs (fst r) = snd r).
Proof.
  unfold retrieve_data.
  eapply (runs_bind_gen _ _ _ (fun events => events = [])).
  { apply with_lock_runs. apply (for_each_retrieve_runs w _ variables esgf_params []). }
  2:{ intros e. done. }
  2:{ intros e1 e2 He1 ->. by rewrite app_nil_r. }
  intros [esgf_params' dsets] E. simpl in E. subst.
  apply runs_ret; [done|]. simpl. done.
Qed.

(** One variable per call: the call is one block. *)
Lemma retrieve_data_serialized w (esgf_params : dict) times variable rp :
  runs (retrieve_data w esgf_params times [variable] rp)
       (serialized (lock rp) (esgf_params !! "frequency") 1)
       (fun r => snd r = <["variable" := VStr variable]> esgf_params ∧ attrs (fst r) = snd r).
Proof.
  eapply runs_events; [apply retrieve_data_runs|].
  intros e (b & -> & [Hb Ho]). rewrite <- (app_nil_r (guarded _ _)).
  constructor; [done|done|constructor].
Qed.

(** ** Datasets *)

Lemma getitem_Ok (d : dict) k v : getitem d k = Ok v → d !! k = Some v.
Proof. unfold getitem. destruct (d !! k); [|done]. by intros [= ->]. Qed.

Lemma pop_Ok (d d' : dict) k : pop d k = Ok d' → d' = delete k d.
Proof. unfold pop. destruct (d !! k); [|done]. by intros [= <-]. Qed.

Lemma getvar_Ok ds name a : getvar ds name = Ok a → data_vars ds !! name = Some a.
Proof. unfold getvar. destruct (data_vars ds !! name); [|done]. by intros [= ->]. Qed.

Lemma fold_drop_unless keep ks : ∀ (vars : gmap string DataArray) k,
  fold_left (drop_unless keep) ks vars !! k =
  if bool_decide (k ∈ keep) then vars !! k
  else if bool_decide (k ∈ ks) then None else vars !! k.
Proof.
  induction ks as [|x ks IH]; intros vars k; simpl.
  - repeat case_bool_decide; done.
  - rewrite IH. unfold drop_unless.
    destruct (decide (k = x)) as [->|Hne].
    + repeat case_bool_decide; try done; try (by rewrite lookup_delete_eq);
        exfalso; set_solver.
    + repeat case_bool_decide; try done; try (by rewrite lookup_delete_ne);
        exfalso; set_solver.
Qed.

Lemma prune_lookup keep ds k :
  data_vars (prune keep ds) !! k =
  if bool_decide (k ∈ keep) then data_vars ds !! k else None.
Proof.
  unfold prune. simpl. rewrite fold_drop_unless.
  destruct (bool_decide (k ∈ keep)); [done|].
  destruct (bool_decide _) eqn:Hk; [done|]. apply bool_decide_eq_false in Hk.
  destruct (data_vars ds !! k) as [a|] eqn:E; [|done].
  exfalso. apply Hk. apply list_elem_of_In, in_map_iff. exists (k, a).
  split; [done|]. apply list_elem_of_In. by apply elem_of_map_to_list.
Qed.

Lemma prune_dom keep ds :
  dom (data_vars (prune keep ds)) = dom (data_vars ds) ∩ list_to_set keep.
Proof.
  apply set_eq. intros k. rewrite elem_of_intersection, !elem_of_dom, prune_lookup.
  rewrite elem_of_list_to_set. case_bool_decide as Hk; split; try tauto.
  intros []%is_Some_None.
Qed.

Lemma prune_attrs keep ds : attrs (prune keep ds) = attrs ds.
Proof. reflexivity. Qed.

Lemma rename_var_Ok old new ds ds' :
  rename_var old new ds = Ok ds' →
  old ∈ dom (data_vars ds) ∧
  dom (data_vars ds') = {[new]} ∪ (dom (data_vars ds) ∖ {[old]}).
Proof.
  unfold rename_var. destruct (data_vars ds !! old) as [a|] eqn:E; [|done].
  case_bool_decide; [done|]. intros [= <-]. simpl. split.
  - apply elem_of_dom. eauto.
  - by rewrite dom_insert_L, dom_delete_L.
Qed.

Lemma setitem_dom name a ds :
  dom (data_vars (setitem name a ds)) = {[name]} ∪ dom (data_vars ds).
Proof. unfold setitem. simpl. by rewrite dom_insert_L. Qed.

Lemma drop_scalar_Ok name ds ds' :
  drop_scalar name ds = Ok ds' → data_vars ds' = data_vars ds.
Proof. unfold drop_scalar. case_bool_decide; [|done]. by intros [= <-]. Qed.

Lemma getvar_dom ds name a : getvar ds name = Ok a → name ∈ dom (data_vars ds).
Proof. intros H%getvar_Ok. apply elem_of_dom. eauto. Qed.

Lemma data_vars_set_attrs a ds : data_vars (set_attrs a ds) = data_vars ds.
Proof. reflexivity. Qed.

Lemma attrs_set_attrs a ds : attrs (set_attrs a ds) = a.
Proof. reflexivity. Qed.

(** ** The calculators *)

Ltac run_res x H :=
  eapply runs_bind;
  [ apply serialized_app
  | apply runs_liftR; apply serialized_nil
  | intros x H; cbv beta in H ].

Ltac run_retrieve Hfreq ds p Hp Ha :=
  eapply runs_bind;
  [ apply serialized_app
  | eapply runs_events;
    [ apply retrieve_data_serialized
    | let ev := fresh "ev" in let Hev := fresh "Hev" in
      intros ev Hev; rewrite Hfreq; subst; simplify_map_eq; exact Hev ]
  | intros [ds p] [Hp Ha]; simpl in Hp, Ha ].

Lemma get_data_influx_runs w (esgf_params_all : dict) cutout rp :
  runs (get_data_influx w esgf_params_all cutout rp)
       (serialized (lock rp) (esgf_params_all !! "frequency_solar") 1)
       (fun ds => dom (data_vars ds) = list_to_set ["influx"; "outflux"] ∧
                  provenance esgf_params_all "frequency_solar" false
                             ["influx"; "outflux"] (attrs ds)).
Proof.
  unfold get_data_influx.
  run_res source_id H1. run_res variant_label H2. run_res experiment_id H3.
  run_res project H4. run_res frequency H5.
  apply getitem_Ok in H1, H2, H3, H4, H5.
  cbv zeta. run_res t_first Hf. run_res t_last Hl.
  run_retrieve H5 drsds p1 Hp1 Ha1. run_res rsds Hr1.
  run_retrieve H5 drsus p2 Hp2 Ha2. run_res rsus Hr2.
  run_res rsds' Hs1. run_res rsus' Hs2. run_res rsus_rsus Hv.
  run_res ds1 Hn1. run_res ds2 Hn2. run_res attr Hpop.
  apply runs_ret; [apply serialized_nil|].
  apply rename_var_Ok in Hn1 as [Hin1 Hd1]. apply rename_var_Ok in Hn2 as [Hin2 Hd2].
  rewrite prune_dom, setitem_dom in Hd1, Hin1. apply pop_Ok in Hpop.
  split.
  - simpl. rewrite Hd2, Hd1. simpl. set_solver.
  - simpl. subst. unfold provenance. simplify_map_eq.
    repeat split; try done. rewrite dom_delete_L, !dom_insert_L. set_solver.
Qed.

Lemma get_data_wind_runs w (esgf_params_all : dict) cutout rp :
  runs (get_data_wind w esgf_params_all cutout rp)
       (serialized (lock rp) (esgf_params_all !! "frequency_wind") 1)
       (fun ds => dom (data_vars ds)
                  = list_to_set ["wnd"; "z"; "ua"; "va"; "ta"; "hus"; "pa"] ∧
                  provenance esgf_params_all "frequency_wind" true
                    ["wind speed lvl"; "z"; "ua"; "va"; "ta"; "hus"; "pa"] (attrs ds)).
Proof.
  unfold get_data_wind.
  run_res source_id H1. run_res variant_label H2. run_res experiment_id H3.
  run_res project H4. run_res frequency H5. run_res table_id H6.
  apply getitem_Ok in H1, H2, H3, H4, H5, H6.
  cbv zeta.
  run_retrieve H5 du p1 Hp1 Ha1. run_res u Hr1.
  run_retrieve H5 dv p2 Hp2 Ha2. run_res v Hr2.
  run_res t_first Hf. run_res t_last Hl. run_res u' Hs1. run_res v' Hs2.
  run_res u_ua Hua. run_res v_va Hva.
  match goal with |- runs (_ ≫= _) _ _ =>
    eapply (runs_bind _ (serialized_app _ _ _) _ _
              (fun r => delete "variable" (snd r) = delete "variable" p2))
  end.
  { destruct (has_var u' "ps").
    - run_retrieve H5 d_ta p3 Hp3 Ha3. run_res t Hr3. run_res t' Hs3.
      run_retrieve H5 d_hus p4 Hp4 Ha4. run_res q Hr4. run_res q' Hs4.
      run_res t_ta Hta. run_res q_hus Hhus. run_res b Hb. run_res ps Hps. run_res ap_u Hap.
      destruct (_ =? 0)%nat; [apply runs_raise, serialized_nil|].
      destruct (_ =? 1)%nat; [apply runs_raise, serialized_nil|].
      apply runs_ret; [apply serialized_nil|]. simpl. rewrite Hp4, Hp3.
      by rewrite !delete_insert_eq.
    - run_res u_b Hb. run_res u_orog Horog.
      apply runs_ret; [apply serialized_nil|]. done. }
  intros [[z t_q_p] esgf_params] Hd. simpl in Hd.
  run_res v_va' Hva'.
  destruct t_q_p as [[[t q] p]|]; [|apply runs_raise, serialized_nil].
  run_res t_ta Hta. run_res q_hus Hhus. run_res attr Hpop.
  apply runs_ret; [apply serialized_nil|].
  apply pop_Ok in Hpop. apply getvar_dom in Hua.
  split.
  - rewrite data_vars_set_attrs, prune_dom, !setitem_dom.
    cbn [list_to_set foldr]. set_solver.
  - rewrite attrs_set_attrs. subst attr. rewrite delete_insert_ne by done. rewrite Hd. subst.
    unfold provenance. simplify_map_eq.
    repeat split; try done.
    all: rewrite ?dom_insert_L, ?dom_delete_L, ?dom_insert_L; set_solver.
Qed.

Lemma get_data_surface_runs w (esgf_params_all : dict) cutout rp :
  runs (get_data_surface w esgf_params_all cutout rp)
       (serialized (lock rp) (esgf_params_all !! "frequency_temp") 1)
       (fun ds => dom (data_vars ds)
                  = list_to_set ["temperature"; "humidity"; "pressure"] ∧
                  provenance esgf_params_all "frequency_temp" false
                    ["temperature"; "humidity"; "pressure"] (attrs ds)).
Proof.
  unfold get_data_surface.
  run_res source_id H1. run_res variant_label H2. run_res experiment_id H3.
  run_res project H4. run_res frequency H5.
  apply getitem_Ok in H1, H2, H3, H4, H5.
  cbv zeta. run_res t_first Hf. run_res t_last Hl.
  run_retrieve H5 dtas p1 Hp1 Ha1. run_res tas Hr1. run_res tas' Hs1.
  run_retrieve H5 dqs p2 Hp2 Ha2. run_res qs Hr2. run_res qs' Hs2.
  run_retrieve H5 dps p3 Hp3 Ha3. run_res ps Hr3. run_res ps' Hs3.
  run_res ds1 Hn1. run_res tas_tas Hv1. run_res ps_ps Hv2. run_res qs_huss Hv3.
  run_res ds2 Hdrop. run_res attr Hpop.
  apply runs_ret; [apply serialized_nil|].
  apply rename_var_Ok in Hn1 as [Hin1 Hd1]. apply drop_scalar_Ok in Hdrop.
  apply pop_Ok in Hpop.
  split.
  - rewrite data_vars_set_attrs, prune_dom, Hdrop, !setitem_dom, Hd1.
    cbn [list_to_set foldr]. set_solver.
  - rewrite attrs_set_attrs. subst. unfold provenance. simplify_map_eq.
    repeat split; try done.
    all: rewrite ?dom_insert_L, ?dom_delete_L, ?dom_insert_L; set_solver.
Qed.

Lemma get_data_wind10m_runs w (esgf_params_all : dict) cutout rp :
  runs (get_data_wind10m w esgf_params_all cutout rp)
       (serialized (lock rp) (esgf_params_all !! "frequency_wnd10m") 1)
       (fun ds => dom (data_vars ds) = list_to_set ["ua10m"; "va10m"; "wnd10m"] ∧
                  provenance esgf_params_all "frequency_wnd10m" false
                    ["ua10m"; "va10m"; "wnd10m"] (attrs ds)).
Proof.
  unfold get_data_wind10m.
  run_res source_id H1. run_res variant_label H2. run_res experiment_id H3.
  run_res project H4. run_res frequency H5.
  apply getitem_Ok in H1, H2, H3, H4, H5.
  cbv zeta. run_res t_first Hf. run_res t_last Hl.
  run_retrieve H5 duas p1 Hp1 Ha1. run_res uas Hr1. run_res uas' Hs1.
  run_retrieve H5 dvas p2 Hp2 Ha2. run_res vas Hr2. run_res vas' Hs2.
  run_res uas_uas Hv1. run_res vas_vas Hv2.
  run_res ds1 Hn1. run_res ds2 Hdrop. run_res attr Hpop.
  apply runs_ret; [apply serialized_nil|].
  apply rename_var_Ok in Hn1 as [Hin1 Hd1]. apply drop_scalar_Ok in Hdrop.
  apply pop_Ok in Hpop.
  split.
  - rewrite data_vars_set_attrs, prune_dom, Hdrop, !setitem_dom, Hd1.
    cbn [list_to_set foldr]. set_solver.
  - rewrite attrs_set_attrs. subst. unfold provenance. simplify_map_eq.
    repeat split; try done.
    all: rewrite ?dom_insert_L, ?dom_delete_L, ?dom_insert_L; set_solver.
Qed.

(** ** The variables of a dataset on its way through the pipeline *)

Lemma normalize_lon_dom ds ds' :
  normalize_lon ds = Ok ds' → dom (data_vars ds') = dom (data_vars ds).
Proof.
  unfold normalize_lon. destruct (ds_horiz ds); intros [= <-]; simpl; apply dom_fmap_L.
Qed.

Lemma rename_lon_lat_dom ds ds' :
  rename_lon_lat ds = Ok ds' → dom (data_vars ds') = dom (data_vars ds).
Proof. unfold rename_lon_lat. destruct (ds_horiz ds); by intros [= <-]. Qed.

Lemma isel_x_dom pos ds : dom (data_vars (isel_x pos ds)) = dom (data_vars ds).
Proof. apply dom_fmap_L. Qed.

Lemma isel_y_dom pos ds : dom (data_vars (isel_y pos ds)) = dom (data_vars ds).
Proof. apply dom_fmap_L. Qed.

Lemma isel_time_dom pos ds : dom (data_vars (isel_time pos ds)) = dom (data_vars ds).
Proof. apply dom_fmap_L. Qed.

Lemma isel_lev_dom pos ds : dom (data_vars (isel_lev pos ds)) = dom (data_vars ds).
Proof. apply dom_fmap_L. Qed.

Lemma Res_bind_inv {A B} (r : Res A) (k : A → Res B) b :
  r ≫= k = Ok b → ∃ a, r = Ok a ∧ k a = Ok b.
Proof. destruct r as [a|e]; [|done]. intros H. by exists a. Qed.

Lemma maybe_swap_spatial_dims_dom ds ds' :
  maybe_swap_spatial_dims ds = Ok ds' → dom (data_vars ds') = dom (data_vars ds).
Proof.
  unfold maybe_swap_spatial_dims. intros H.
  apply Res_bind_inv in H as (lx & _ & H). apply Res_bind_inv in H as (rx & _ & H).
  apply Res_bind_inv in H as (ly & _ & H). apply Res_bind_inv in H as (uy & _ & H).
  injection H as <-.
  destruct (Qle_bool ly uy), (Qle_bool lx rx); by rewrite ?isel_y_dom, ?isel_x_dom.
Qed.

Lemma rename_and_fix_coords_dom w cutout ds ds' :
  _rename_and_fix_coords w cutout ds = Ok ds' → dom (data_vars ds') = dom (data_vars ds).
Proof.
  unfold _rename_and_fix_coords. intros H.
  apply Res_bind_inv in H as (ds1 & H1 & H). apply Res_bind_inv in H as (ds2 & H2 & H).
  apply Res_bind_inv in H as (ds3 & H3 & H).
  apply normalize_lon_dom in H1. apply rename_lon_lat_dom in H2.
  apply maybe_swap_spatial_dims_dom in H3.
  rewrite <- H1, <- H2, <- H3.
  change (dom (data_vars ds3)) with (dom (data_vars (add_lon_lat ds3))).
  destruct (ds_time (add_lon_lat ds3)) as [[|t ts]|calendar [|t ts]]; try done.
  - by injection H as <-.
  - destruct (String.eqb calendar "360_day").
    + destruct (convert_calendar w _ _) as [stamps f]. injection H as <-. simpl.
      apply dom_fmap_L.
    + apply Res_bind_inv in H as (stamps & _ & H). by injection H as <-.
Qed.

Lemma sel_dom levs t0 t1 xs ys ds ds' :
  sel levs t0 t1 xs ys ds = Ok ds' → dom (data_vars ds') = dom (data_vars ds).
Proof.
  unfold sel. intros H. apply Res_bind_inv in H as (ds1 & H1 & H).
  assert (E1 : dom (data_vars ds1) = dom (data_vars ds)).
  { destruct levs as [[l0 l1]|]; [|by injection H1 as <-].
    destruct (ds_lev ds); [|done]. injection H1 as <-. apply isel_lev_dom. }
  destruct (ds_horiz ds1); [done| |]; injection H as <-;
    by rewrite isel_y_dom, isel_x_dom, isel_time_dom.
Qed.

Lemma sel_cutout_dom levs t0 t1 cutout ds ds' :
  sel_cutout levs t0 t1 cutout ds = Ok ds' → dom (data_vars ds') = dom (data_vars ds).
Proof.
  unfold sel_cutout. destruct (bounds cutout) as [[[b0 b1] b2] b3]. apply sel_dom.
Qed.

Lemma has_var_dom ds name : has_var ds name = true ↔ name ∈ dom (data_vars ds).
Proof. unfold has_var. by rewrite bool_decide_eq_true, elem_of_dom. Qed.

(** What one [retrieve_data] call for one variable returns was opened by
    the world. *)
Lemma retrieve_data_opened w (esgf_params : dict) times variable rp :
  runs (retrieve_data w esgf_params times [variable] rp) (fun _ => True)
       (fun r => ∃ files raw, open_mfdataset w files = Ok raw ∧
                              data_vars (fst r) = data_vars raw).
Proof.
  intros s. destruct (retrieve_data_runs w esgf_params times [variable] rp s)
    as (Hc & events & Ht & _ & _).
  split; [done|]. exists events. split; [done|]. split; [done|].
  intros [ds p]. unfold retrieve_data, mbind, M_bind.
  destruct (with_lock _ _ s) as [[[p' dsets]|e] s1] eqn:E; [|done].
  simpl. intros [= <- <-].
  assert (∃ files raw, open_mfdataset w files = Ok raw ∧ dsets = [raw])
    as (files & raw & Hopen & ->).
  { unfold with_lock in E.
    assert (Hbody : ∀ s0 p'' dsets' s1',
      for_each (retrieve_variable w (unique_years times)) (esgf_params, []) [variable] s0
      = (Ok (p'', dsets'), s1') →
      ∃ files raw, open_mfdataset w files = Ok raw ∧ dsets' = [raw]).
    { clear. intros s0 p'' dsets' s1'. simpl.
      unfold retrieve_variable, mbind, M_bind, mret, M_ret, liftR, emit.
      destruct (search_ESGF w _ s0) as [[results|e] s2]; [|done].
      destruct (files_of_years results _) as [files|e]; [|done]. simpl.
      destruct (open_mfdataset w files) as [raw|e] eqn:Eo; [|done].
      intros [= <- <- <-]. eauto. }
    destruct (lock rp).
    - destruct (for_each _ _ _ _) as [[[p'' dsets']|e] s1'] eqn:E'; [|done].
      injection E as <- <- <-. eapply Hbody, E'.
    - eapply Hbody, E. }
  exists files, raw. done.
Qed.

Ltac any_res x H :=
  eapply (runs_bind (fun _ => True));
  [ done | apply runs_liftR; done | intros x H; cbv beta in H ].

Ltac any_retrieve ds p H :=
  eapply (runs_bind (fun _ => True));
  [ done | apply retrieve_data_opened | intros [ds p] H; simpl in H ].

(** Without a surface pressure among the files, the calculator of [wind]
    takes the branch that leaves [t] unbound. *)
Lemma get_data_wind_without_ps w (esgf_params_all : dict) cutout rp :
  (∀ files raw, open_mfdataset w files = Ok raw → "ps" ∉ dom (data_vars raw)) →
  runs (get_data_wind w esgf_params_all cutout rp) (fun _ => True) (fun _ => False).
Proof.
  intros Hworld. unfold get_data_wind.
  any_res source_id H1. any_res variant_label H2. any_res experiment_id H3.
  any_res project H4. any_res frequency H5. any_res table_id H6.
  cbv zeta.
  any_retrieve du p1 Hdu. any_res u Hr1.
  any_retrieve dv p2 Hdv. any_res v Hr2.
  any_res t_first Hf. any_res t_last Hl. any_res u' Hs1. any_res v' Hs2.
  any_res u_ua Hua. any_res v_va Hva.
  assert (Eps : has_var u' "ps" = false).
  { apply not_true_is_false. rewrite has_var_dom.
    rewrite (sel_cutout_dom _ _ _ _ _ _ Hs1), (rename_and_fix_coords_dom _ _ _ _ Hr1).
    destruct Hdu as (files & raw & Hopen & ->). by apply (Hworld files). }
  rewrite Eps.
  match goal with |- runs (_ ≫= _) _ _ =>
    eapply (runs_bind (fun _ => True) (fun _ _ _ _ => I) _ _ (fun r => snd (fst r) = None))
  end.
  { any_res u_b Hb. any_res u_orog Horog. by apply runs_ret. }
  intros [[z t_q_p] esgf_params] Hnone. simpl in Hnone. subst t_q_p.
  any_res v_va' Hva'. by apply runs_raise.
Qed.

Lemma get_data_wind_never_returns w (esgf_params_all : dict) cutout rp s :
  (∀ files raw, open_mfdataset w files = Ok raw → "ps" ∉ dom (data_vars raw)) →
  ∃ e, fst (get_data_wind w esgf_params_all cutout rp s) = Err e.
Proof.
  intros Hworld.
  destruct (get_data_wind_without_ps w esgf_params_all cutout rp Hworld s)
    as (_ & _ & _ & _ & HQ).
  destruct (fst (get_data_wind w esgf_params_all cutout rp s)) as [ds|e]; [|eauto].
  destruct (HQ ds eq_refl).
Qed.

(** ** The dispatcher *)

Lemma dom_features : dom features = {[ "wind"; "influx"; "wind10m"; "surface" ]}.
Proof. unfold features. rewrite !dom_insert_L, dom_singleton_L. set_solver. Qed.

Lemma get_data_name_inj (a b : string) : "get_data_" +:+ a = "get_data_" +:+ b → a = b.
Proof. intros H. by apply (inj (String.append "get_data_")) in H. Qed.

(** The calculators that [get_data] can find *)
Lemma globals_calculator feature g :
  globals !! ("get_data_" +:+ feature) = Some g →
  feature ∈ dom features ∧ globals !! ("sanitize_" +:+ feature) = None ∧
  ( (feature = "influx" ∧ g = Calculator get_data_influx)
  ∨ (feature = "wind" ∧ g = Calculator get_data_wind)
  ∨ (feature = "surface" ∧ g = Calculator get_data_surface)
  ∨ (feature = "wind10m" ∧ g = Calculator get_data_wind10m)).
Proof.
  unfold globals. intros H.
  apply lookup_insert_Some in H as [[E <-] | [_ H]].
  { apply (get_data_name_inj "influx") in E. subst. rewrite dom_features.
    split; [set_solver|]. split; [reflexivity|]. auto. }
  apply lookup_insert_Some in H as [[E <-] | [_ H]].
  { exfalso. vm_compute in E. discriminate E. }
  apply lookup_insert_Some in H as [[E <-] | [_ H]].
  { apply (get_data_name_inj "wind") in E. subst. rewrite dom_features.
    split; [set_solver|]. split; [reflexivity|]. auto. }
  apply lookup_insert_Some in H as [[E <-] | [_ H]].
  { apply (get_data_name_inj "surface") in E. subst. rewrite dom_features.
    split; [set_solver|]. split; [reflexivity|]. auto. }
  apply lookup_singleton_Some in H as [E <-].
  apply (get_data_name_inj "wind10m") in E. subst. rewrite dom_features.
  split; [set_solver|]. split; [reflexivity|]. auto 6.
Qed.

Lemma globals_registered feature :
  feature ∈ dom features → ∃ g, globals !! ("get_data_" +:+ feature) = Some g.
Proof.
  rewrite dom_features. intros H.
  assert (feature = "wind" ∨ feature = "influx" ∨ feature = "wind10m" ∨ feature = "surface")
    as [-> | [-> | [-> | ->]]] by set_solver; eexists; reflexivity.
Qed.

(** How a call of [get_data] goes, case by case. *)
Lemma get_data_no_params w cutout feature tmpdir lock sanitize s :
  esgf_params_of_cutout s = None →
  get_data w cutout feature tmpdir lock sanitize s
  = (Err (ValueError "ESGF search parameters not provided"), s).
Proof. intros H. unfold get_data. by rewrite H. Qed.

Lemma get_data_bad_cadence w cutout feature tmpdir lock sanitize s d e :
  esgf_params_of_cutout s = Some d → retrieval_frequency d cutout = Err e →
  get_data w cutout feature tmpdir lock sanitize s = (Err e, s).
Proof.
  intros H Hf. unfold get_data. rewrite H. unfold mbind, M_bind, liftR. by rewrite Hf.
Qed.

Lemma get_data_unregistered w cutout feature tmpdir lock sanitize s d freq :
  esgf_params_of_cutout s = Some d → retrieval_frequency d cutout = Ok freq →
  globals !! ("get_data_" +:+ feature) = None →
  get_data w cutout feature tmpdir lock sanitize s
  = (Err (TypeError "'NoneType' object is not callable"),
     mkState (Some (<["frequency" := freq]> d)) (trace s)).
Proof.
  intros H Hf Hg. unfold get_data. rewrite H.
  unfold mbind, M_bind, liftR, setitem_esgf_params. rewrite Hf. cbn beta iota zeta.
  rewrite Hg. unfold raise. simpl. by rewrite H.
Qed.

Lemma get_data_registered w cutout feature tmpdir lock sanitize s d freq g :
  esgf_params_of_cutout s = Some d → retrieval_frequency d cutout = Ok freq →
  globals !! ("get_data_" +:+ feature) = Some g →
  ∃ func, g = Calculator func ∧
    get_data w cutout feature tmpdir lock sanitize s
    = func w (<["frequency" := freq]> d) cutout (mkRetrievalParams tmpdir lock)
           (mkState (Some (<["frequency" := freq]> d)) (trace s)).
Proof.
  intros H Hf Hg. destruct (globals_calculator _ _ Hg) as (_ & Hs & Hcases).
  assert (∃ func, g = Calculator func) as [func ->].
  { destruct Hcases as [[_ ->]|[[_ ->]|[[_ ->]|[_ ->]]]]; eauto. }
  exists func. split; [done|].
  unfold get_data. rewrite H.
  unfold mbind, M_bind, liftR, setitem_esgf_params. rewrite Hf. cbn beta iota zeta.
  rewrite Hg, Hs. simpl. rewrite H. simpl.
  destruct (func _ _ _ _ _) as [[ds|e] s']; reflexivity.
Qed.

(** The sanitizer is never found: [sanitize] changes nothing. *)
Lemma get_data_sanitize_irrelevant w cutout feature tmpdir lock s :
  get_data w cutout feature tmpdir lock true s
  = get_data w cutout feature tmpdir lock false s.
Proof.
  destruct (esgf_params_of_cutout s) as [d|] eqn:H.
  2:{ by rewrite !get_data_no_params. }
  destruct (retrieval_frequency d cutout) as [freq|e] eqn:Hf.
  2:{ by rewrite !(get_data_bad_cadence _ _ _ _ _ _ _ d e). }
  destruct (globals !! ("get_data_" +:+ feature)) as [g|] eqn:Hg.
  2:{ by rewrite !(get_data_unregistered _ _ _ _ _ _ _ d freq). }
  destruct (get_data_registered w cutout feature tmpdir lock true s d freq g H Hf Hg)
    as (f1 & E1 & ->).
  destruct (get_data_registered w cutout feature tmpdir lock false s d freq g H Hf Hg)
    as (f2 & E2 & ->).
  congruence.
Qed.

(** What [sanitize_inflow] does when it is called. *)
Lemma sanitize_inflow_clips ds ds' :
  sanitize_inflow ds = Ok ds' →
  ∃ influx, data_vars ds' !! "influx" = Some influx ∧ ∀ i, (0 <= influx i)%R.
Proof.
  unfold sanitize_inflow. destruct (data_vars ds !! "influx") as [a|]; [|done].
  intros [= <-]. exists (clip_min 0 a). split.
  - unfold setitem. simpl. apply lookup_insert_eq.
  - intros i. unfold clip_min. apply Rmax_r.
Qed.

(** The calculator of each registered feature *)
Lemma calculator_runs w feature g (d : dict) cutout rp :
  globals !! ("get_data_" +:+ feature) = Some g →
  ∃ func declared, g = Calculator func ∧ features !! feature = Some declared ∧
    runs (func w d cutout rp)
         (serialized (lock rp) (d !! frequency_key feature) 1)
         (fun ds => dom (data_vars ds) = list_to_set declared ∧
                    provenance d (frequency_key feature) (bool_decide (feature = "wind"))
                               (recorded_variables feature) (attrs ds)).
Proof.
  intros Hg. destruct (globals_calculator _ _ Hg) as (_ & _ & Hcases).
  destruct Hcases as [[-> ->]|[[-> ->]|[[-> ->]|[-> ->]]]];
    eexists _, _; (split; [reflexivity|]); (split; [reflexivity|]).
  - apply get_data_influx_runs.
  - apply get_data_wind_runs.
  - apply get_data_surface_runs.
  - apply get_data_wind10m_runs.
Qed.

(** ** The claims on the dispatcher *)

(** C1, at a concrete retrieval: [get_data] for [influx] with
    [sanitize=True] returns the down-welling radiation as retrieved, here
    -1 at one grid point: [sanitize_influx] is looked up, the sanitizer is
    called [sanitize_inflow], and nothing is clipped. *)
Theorem influx_not_sanitized :
  ∃ ds influx,
    fst (get_data example_world example_cutout "influx" "/tmp" None true example_state) = Ok ds ∧
    data_vars ds !! "influx" = Some influx ∧
    influx (mkIndex 0 0 0 1) = (-1)%R ∧ (influx (mkIndex 0 0 0 1) < 0)%R.
Proof.
  eexists _, _. split; [vm_compute; reflexivity|].
  split; [vm_compute; reflexivity|].
  split; vm_compute; lra.
Qed.

(** The lookup of an unregistered feature *)

Lemma globals_unregistered feature :
  feature ∉ dom features → globals !! ("get_data_" +:+ feature) = None.
Proof.
  intros Hn. destruct (globals !! ("get_data_" +:+ feature)) as [g|] eqn:Hg; [|done].
  by destruct (globals_calculator _ _ Hg) as (Hin & _).
Qed.

(** C2 as worded fails for the feature [runoff]: the call fails with the
    [TypeError] of calling [None], whose text does not name the feature. *)
Lemma unregistered_feature_not_named :
  ¬ unregistered_feature_named example_world example_cutout "runoff" "/tmp" None true
      example_state.
Proof.
  intros H. destruct H as (e & He & Hc & _).
  { rewrite dom_features. set_solver. }
  vm_compute in He. injection He as <-. vm_compute in Hc. discriminate Hc.
Qed.

(** C2, amended: a call for an unregistered feature fails and retrieves
    nothing (no search, no file opened, no lock taken): with the
    [ValueError] of the missing parameters when the cutout has none, with
    the [ValueError] of the cadence when no frequency can be settled, and
    otherwise with the [TypeError] of calling the calculator that was not
    found. *)
Theorem get_data_unregistered_fails w cutout feature tmpdir lock sanitize s :
  feature ∉ dom features →
  ∃ e, fst (get_data w cutout feature tmpdir lock sanitize s) = Err e ∧
       trace (snd (get_data w cutout feature tmpdir lock sanitize s)) = trace s ∧
       e = match esgf_params_of_cutout s with
           | None => ValueError "ESGF search parameters not provided"
           | Some d =>
               match retrieval_frequency d cutout with
               | Err e' => e'
               | Ok _ => TypeError "'NoneType' object is not callable"
               end
           end.
Proof.
  intros Hn. apply globals_unregistered in Hn.
  destruct (esgf_params_of_cutout s) as [d|] eqn:H.
  2:{ rewrite get_data_no_params by done. eauto. }
  destruct (retrieval_frequency d cutout) as [freq|e] eqn:Hf.
  2:{ rewrite (get_data_bad_cadence _ _ _ _ _ _ _ d e) by done. eauto. }
  rewrite (get_data_unregistered _ _ _ _ _ _ _ d freq) by done. eauto.
Qed.

(** C2, amended, for the feature [runoff]. *)
Lemma get_data_unregistered_fails_witness :
  ∃ e, fst (get_data example_world example_cutout "runoff" "/tmp" None true example_state)
       = Err e ∧ e = TypeError "'NoneType' object is not callable".
Proof.
  destruct (get_data_unregistered_fails example_world example_cutout "runoff" "/tmp" None
              true example_state) as (e & He & _ & E).
  - rewrite dom_features. set_solver.
  - exists e. split; [exact He|exact E].
Defined.

(** The events of a serialized run *)

Lemma serialized_events lock freq n events :
  serialized lock freq n events →
  Forall (fun e => is_lock_event e ∨ retrieval_event freq e) events.
Proof.
  induction 1 as [|body rest Hb _ _ IH]; [constructor|].
  apply Forall_app. split; [|done].
  assert (Hbody : Forall (fun e => is_lock_event e ∨ retrieval_event freq e) body).
  { eapply Forall_impl; [exact Hb|]. intros e He. by right. }
  destruct lock; simpl; [|done].
  constructor; [left; by left|]. apply Forall_app. split; [done|].
  constructor; [left; by right|constructor].
Qed.

Lemma frequency_key_other feature : frequency_key feature ≠ "frequency".
Proof. unfold frequency_key. repeat destruct (String.eqb _ _); done. Qed.

Lemma retrieval_frequency_supplied (d : dict) cutout freq :
  get_or_none d "frequency" = freq → freq ≠ VNone → retrieval_frequency d cutout = Ok freq.
Proof. unfold retrieval_frequency. intros <- H. by destruct (get_or_none d "frequency"). Qed.

Lemma cadence_frequency_table code token :
  (code, token) ∈ cadence_table → cadence_frequency code = Ok token.
Proof.
  unfold cadence_table. intros H.
  repeat (apply elem_of_cons in H as [[= -> ->]|H]; [reflexivity|]).
  by apply elem_of_nil in H.
Qed.

Lemma cadence_frequency_unknown code :
  code ∉ cadence_table.*1 →
  cadence_frequency code = Err (ValueError (code +:+ " not valid time frequency in CMIP")).
Proof.
  unfold cadence_table, cadence_frequency. simpl. intros H.
  repeat match goal with
         | |- context [String.eqb code ?x] =>
             destruct (String.eqb_spec code x) as [->|_]; [exfalso; apply H; set_solver|]
         end.
  done.
Qed.


(** The trace of a call, whatever the feature. *)
Lemma get_data_trace w cutout feature tmpdir lock sanitize s :
  ∃ events,
    trace (snd (get_data w cutout feature tmpdir lock sanitize s)) = trace s ++ events ∧
    (events = [] ∨
     ∃ d, esgf_params_of_cutout s = Some d ∧
          serialized lock (d !! frequency_key feature) 1 events).
Proof.
  destruct (esgf_params_of_cutout s) as [d|] eqn:H.
  2:{ rewrite get_data_no_params by done. exists []. by rewrite app_nil_r; auto. }
  destruct (retrieval_frequency d cutout) as [freq|e] eqn:Hf.
  2:{ rewrite (get_data_bad_cadence _ _ _ _ _ _ _ d e) by done.
      exists []. by rewrite app_nil_r; auto. }
  destruct (globals !! ("get_data_" +:+ feature)) as [g|] eqn:Hg.
  2:{ rewrite (get_data_unregistered _ _ _ _ _ _ _ d freq) by done.
      exists []. by rewrite app_nil_r; auto. }
  destruct (get_data_registered w cutout feature tmpdir lock sanitize s d freq g H Hf Hg)
    as (func & -> & ->).
  destruct (calculator_runs w feature _ (<["frequency" := freq]> d) cutout
              (mkRetrievalParams tmpdir lock) Hg) as (func' & declared & Efunc & _ & Hruns).
  injection Efunc as <-.
  destruct (Hruns (mkState (Some (<["frequency" := freq]> d)) (trace s)))
    as (_ & events & Ht & Hser & _).
  exists events. split; [exact Ht|]. right. exists d. split; [done|].
  rewrite lookup_insert_ne in Hser by (symmetry; apply frequency_key_other). exact Hser.
Qed.

(** The dict of the cutout after a call that settled on a frequency. *)
Lemma get_data_cell w cutout feature tmpdir lock sanitize s (d : dict) freq :
  esgf_params_of_cutout s = Some d → retrieval_frequency d cutout = Ok freq →
  esgf_params_of_cutout (snd (get_data w cutout feature tmpdir lock sanitize s))
  = Some (<["frequency" := freq]> d).
Proof.
  intros H Hf.
  destruct (globals !! ("get_data_" +:+ feature)) as [g|] eqn:Hg.
  2:{ by rewrite (get_data_unregistered _ _ _ _ _ _ _ d freq). }
  destruct (get_data_registered w cutout feature tmpdir lock sanitize s d freq g H Hf Hg)
    as (func & -> & ->).
  destruct (calculator_runs w feature _ (<["frequency" := freq]> d) cutout
              (mkRetrievalParams tmpdir lock) Hg) as (func' & declared & Efunc & _ & Hruns).
  injection Efunc as <-.
  destruct (Hruns (mkState (Some (<["frequency" := freq]> d)) (trace s))) as (Hc & _).
  by rewrite Hc.
Qed.

(** C3 as worded fails for [influx] on an hourly cutout: the dispatcher
    settles on [h], the catalog is queried with [frequency_solar], here
    [3hr]. *)
Lemma catalog_frequency_differs :
  ¬ searches_use_dispatcher_frequency example_world example_cutout "influx" "/tmp" None true
      example_state.
Proof.
  intros H.
  specialize (H example_params (VStr "h") example_query eq_refl eq_refl).
  assert (Hq : example_query !! "frequency" = Some (VStr "h")).
  { apply H. vm_compute. left. }
  vm_compute in Hq. discriminate Hq.
Qed.

(** C3, amended: the dispatcher settles on the frequency that the cutout
    supplies, else on the token of the cadence table for the time step of
    the cutout, fails with a [ValueError] on any other time step, and writes
    the frequency into the parameters of the cutout; but every query of the
    catalog carries in its frequency field the value that the parameters of
    the cutout hold under the key of the feature ([frequency_solar],
    [frequency_wind], [frequency_temp], [frequency_wnd10m]), and the second
    try that value followed by [Pt]. *)
Theorem catalog_frequency w cutout feature tmpdir lock sanitize s (d : dict) :
  esgf_params_of_cutout s = Some d → feature ∈ dom features →
  (∀ freq, get_or_none d "frequency" = freq → freq ≠ VNone →
     retrieval_frequency d cutout = Ok freq) ∧
  (get_or_none d "frequency" = VNone →
     ∀ token, (dt cutout, token) ∈ cadence_table →
       retrieval_frequency d cutout = Ok (VStr token)) ∧
  (get_or_none d "frequency" = VNone → dt cutout ∉ cadence_table.*1 →
     ∃ msg, get_data w cutout feature tmpdir lock sanitize s = (Err (ValueError msg), s)) ∧
  (∀ freq, retrieval_frequency d cutout = Ok freq →
     esgf_params_of_cutout (snd (get_data w cutout feature tmpdir lock sanitize s))
     = Some (<["frequency" := freq]> d)) ∧
  ∃ events,
    trace (snd (get_data w cutout feature tmpdir lock sanitize s)) = trace s ++ events ∧
    ∀ query,
      (ESearch query ∈ events → query !! "frequency" = d !! frequency_key feature) ∧
      (EConstrain query ∈ events →
         ∃ f, d !! frequency_key feature = Some (VStr f) ∧
              query !! "frequency" = Some (VStr (f +:+ "Pt"))).
Proof.
  intros H Hin. split; [apply retrieval_frequency_supplied|]. split.
  { intros Hnone token Htok. unfold retrieval_frequency. rewrite Hnone.
    by rewrite (cadence_frequency_table _ _ Htok). }
  split.
  { intros Hnone Hbad. eexists. apply (get_data_bad_cadence _ _ _ _ _ _ _ d); [done|].
    unfold retrieval_frequency. rewrite Hnone. by rewrite cadence_frequency_unknown. }
  split.
  { intros freq Hf. by apply get_data_cell. }
  destruct (get_data_trace w cutout feature tmpdir lock sanitize s)
    as (events & Ht & [-> | (d' & Hd' & Hser)]).
  { exists []. split; [done|]. intros query. split; intros []%elem_of_nil. }
  exists events. split; [done|]. rewrite H in Hd'. injection Hd' as <-.
  apply serialized_events in Hser. rewrite Forall_forall in Hser.
  intros query. split; intros Hq; destruct (Hser _ Hq) as [[?|?]|Hev]; try done.
Qed.

(** C3, amended, for [influx] on the hourly cutout. *)
Lemma catalog_frequency_witness :
  esgf_params_of_cutout
    (snd (get_data example_world example_cutout "influx" "/tmp" None true example_state))
  = Some (<["frequency" := VStr "h"]> example_params).
Proof.
  assert (Hin : "influx" ∈ dom features) by (rewrite dom_features; set_solver).
  exact (proj1 (proj2 (proj2 (proj2
    (catalog_frequency example_world example_cutout "influx" "/tmp" None true example_state
       example_params eq_refl Hin)))) (VStr "h") eq_refl).
Defined.

(** One acquisition holds one [EAcquire]. *)

Lemma one_acquisition_count events : one_acquisition events → acquisitions events = 1%nat.
Proof.
  intros (body & -> & Hb). unfold acquisitions. simpl. rewrite filter_app. simpl.
  assert (E : filter is_acquire body = []).
  { induction Hb as [|e body He _ IH]; [done|]. simpl.
    destruct e; simpl; try done. exfalso. apply He. by left. }
  rewrite E. done.
Qed.

(** C6 as worded fails for [influx]: the lock is acquired twice, once for
    each variable, and is free in between. *)
Lemma lock_released_between_variables :
  ¬ retrieval_under_one_acquisition example_world example_cutout "influx" "/tmp" SerialLock
      true example_state.
Proof.
  intros H.
  specialize (H (trace (snd (get_data example_world example_cutout "influx" "/tmp"
                               (Some SerialLock) true example_state))) eq_refl).
  assert (Hn : acquisitions (trace (snd (get_data example_world example_cutout "influx" "/tmp"
                               (Some SerialLock) true example_state))) = 2%nat)
    by (vm_compute; reflexivity).
  rewrite one_acquisition_count in Hn; [discriminate Hn|].
  apply H. intros E. rewrite E in Hn. discriminate Hn.
Qed.

Lemma retrieval_event_not_lock freq e : retrieval_event freq e → ¬ is_lock_event e.
Proof. intros He [-> | ->]; exact He. Qed.

Lemma serialized_unlocked freq n events :
  serialized None freq n events → Forall (fun e => ¬ is_lock_event e) events.
Proof.
  induction 1 as [|body rest Hb _ _ IH]; [constructor|]. simpl.
  apply Forall_app. split; [|done].
  eapply Forall_impl; [exact Hb|]. apply retrieval_event_not_lock.
Qed.

(** C6, amended: every call of [retrieve_data] holds the lock, when there
    is one, from before its first search to after its last opening, for all
    the variables of the call, and leaves it however the call ends; a call
    of [get_data] is a sequence of such blocks, one for each variable that
    its calculator retrieves, each with one opening at most, whatever the
    result; without a lock no lock event occurs. *)
Theorem lock_held_per_retrieval w cutout feature tmpdir lock sanitize s :
  (∀ esgf_params times variables,
     ∃ body,
       trace (snd (retrieve_data w esgf_params times variables
                     (mkRetrievalParams tmpdir lock) s))
       = trace s ++ guarded lock body ∧
       Forall (fun e => ¬ is_lock_event e) body ∧
       (opens body ≤ length variables)%nat) ∧
  ∃ events freq,
    trace (snd (get_data w cutout feature tmpdir lock sanitize s)) = trace s ++ events ∧
    serialized lock freq 1 events ∧
    (lock = None → Forall (fun e => ¬ is_lock_event e) events).
Proof.
  split.
  { intros esgf_params times variables.
    destruct (retrieve_data_runs w esgf_params times variables
                (mkRetrievalParams tmpdir lock) s) as (_ & events & Ht & (body & -> & Hb & Ho) & _).
    exists body. split; [exact Ht|]. split; [|exact Ho].
    eapply Forall_impl; [exact Hb|]. apply retrieval_event_not_lock. }
  destruct (get_data_trace w cutout feature tmpdir lock sanitize s)
    as (events & Ht & [-> | (d & Hd & Hser)]).
  - exists [], None. split; [done|]. split; [constructor|]. intros _. constructor.
  - exists events, (d !! frequency_key feature). split; [done|]. split; [done|].
    intros ->. by apply serialized_unlocked in Hser.
Qed.


(** C7, at a concrete retrieval of [wind]: the variables of the dataset are
    the declared ones and the key [variable] is gone from the attributes,
    but the attribute [variables] lists [wind speed lvl], which is no
    variable of the dataset, where the declared name is [wnd]. *)
Theorem wind_records_undeclared_name :
  ∃ ds,
    fst (get_data example_world example_cutout "wind" "/tmp" None true example_state) = Ok ds ∧
    features !! "wind" = Some ["wnd"; "z"; "ua"; "va"; "ta"; "hus"; "pa"] ∧
    dom (data_vars ds) = list_to_set ["wnd"; "z"; "ua"; "va"; "ta"; "hus"; "pa"] ∧
    attrs ds !! "variables"
    = Some (VList ["wind speed lvl"; "z"; "ua"; "va"; "ta"; "hus"; "pa"]) ∧
    attrs ds !! "variable" = None ∧
    ("wnd" ∉ ["wind speed lvl"; "z"; "ua"; "va"; "ta"; "hus"; "pa"]) ∧
    ("wind speed lvl" ∉ dom (data_vars ds)).
Proof.
  eexists. split; [vm_compute; reflexivity|].
  split; [reflexivity|]. split; [vm_compute; reflexivity|].
  split; [vm_compute; reflexivity|]. split; [vm_compute; reflexivity|].
  split; [set_solver|]. apply not_elem_of_dom. vm_compute. reflexivity.
Qed.

(** C4, at a concrete retrieval of [wind] from files without surface
    pressure: after the two wind components are retrieved, the call ends in
    the [UnboundLocalError] of [t]; no dataset is returned. *)
Theorem wind_on_height_levels_raises :
  data_vars (example_dataset height_levels ∅
               {[ "ua" := example_field 3; "b" := example_field 0;
                  "orog" := example_field 0 ]}) !! "ps" = None ∧
  get_data height_level_world example_cutout "wind" "/tmp" None true example_state
  = (Err (UnboundLocalError "t"),
     mkState (Some (<["frequency" := VStr "h"]> example_params))
             [ESearch (<["variable" := VStr "ua"]> (<["table_id" := VStr "6hrLev"]>
                         (delete "variable" (<["frequency" := VStr "6hr"]> example_query))));
              EOpen [example_url "ua"];
              ESearch (<["variable" := VStr "va"]> (<["table_id" := VStr "6hrLev"]>
                         (delete "variable" (<["frequency" := VStr "6hr"]> example_query))));
              EOpen [example_url "va"]]).
Proof. split; vm_compute; reflexivity. Qed.




(** * Further properties of the code *)

(** ** File names and the years they cover *)

Lemma split_cons_ne sep c s :
  c ≠ sep → ∃ h t, PyStr.split sep (String c s) = String c h :: t.
Proof.
  intros Hc. simpl. apply Ascii.eqb_neq in Hc. rewrite Hc.
  destruct (PyStr.split sep s) as [|h t]; eauto.
Qed.

Lemma int_letter c s : is_letter c → ∃ msg, PyStr.int (String c s) = Err (ValueError msg).
Proof.
  intros Hc. unfold PyStr.int. simpl. unfold PyStr.digit_of.
  assert (E : (48 <=? nat_of_ascii c)%nat && (nat_of_ascii c <=? 57)%nat = false).
  { apply andb_false_iff. destruct Hc as [Hc|Hc]; right; apply Nat.leb_gt; lia. }
  rewrite E. eauto.
Qed.










(** X1: a token that begins with a letter, as that of a file without a
    time range ([gn.nc]), makes the filter raise [ValueError]; a token of
    digits without a dash, with or without an extension, makes it raise
    [IndexError]. *)
Theorem year_in_file_malformed (c : ascii) (rest : string) (ys : Year4) (ra ext : string)
    (years : list Z) :
  is_letter c → year4_ok ys → all_digits ra →
  ext = EmptyString ∨ (∃ e, ext = String "." e) →
  (∃ msg, _year_in_file (String c rest) years = Err (ValueError msg)) ∧
  _year_in_file (year4 ys +:+ ra +:+ ext) years = Err IndexError.
Proof.
  intros Hc Hys Hra Hext. split.
  - assert (Hdot : c ≠ "."%char).
    { intros ->. destruct Hc as [Hc|Hc]; vm_compute in Hc; lia. }
    assert (Hdash : c ≠ "-"%char).
    { intros ->. destruct Hc as [Hc|Hc]; vm_compute in Hc; lia. }
    unfold _year_in_file.
    destruct (split_cons_ne "." c rest Hdot) as (h & t & ->).
    rewrite item_0, Res_bind_Ok.
    destruct (split_cons_ne "-" c h Hdash) as (h' & t' & ->).
    rewrite item_0, Res_bind_Ok.
    destruct (int_letter c (PyStr.prefix 3 h') Hc) as (msg & E).
    exists msg. change (PyStr.prefix 4 (String c h')) with (String c (PyStr.prefix 3 h')).
    by rewrite E.
  - assert (Hdash : (nat_of_ascii "-" < 48 ∨ 57 < nat_of_ascii "-")%nat)
      by (left; vm_compute; lia).
    assert (Hdot : (nat_of_ascii "." < 48 ∨ 57 < nat_of_ascii "." )%nat)
      by (left; vm_compute; lia).
    assert (Ha : all_digits (year4 ys +:+ ra)).
    { unfold all_digits. simpl. pose proof (all_digits_year4 ys Hys) as H4.
      unfold all_digits in H4. simpl in H4.
      repeat (apply Forall_cons in H4 as [? H4]). repeat constructor; auto. }
    rewrite <- string_app_assoc. set (a := year4 ys +:+ ra) in *.
    assert (Esplit : PyStr.item (PyStr.split "." (a +:+ ext)) 0 = Ok a).
    { destruct Hext as [-> | [e ->]].
      - rewrite string_app_empty. rewrite split_free by (by apply all_digits_free). done.
      - rewrite split_free_then by (by apply all_digits_free). done. }
    unfold _year_in_file. rewrite Esplit, Res_bind_Ok.
    rewrite (split_free "-" a) by (by apply all_digits_free).
    rewrite item_0, Res_bind_Ok. subst a.
    rewrite (int_year4 ys ra Hys), Res_bind_Ok. reflexivity.
Qed.

(** X1 at the tokens [gn.nc] and [20150101.nc]. *)
Lemma year_in_file_malformed_witness :
  (∃ msg, _year_in_file "gn.nc" [2015] = Err (ValueError msg)) ∧
  _year_in_file "20150101.nc" [2015] = Err IndexError.
Proof.
  apply (year_in_file_malformed "g" "n.nc" (mkYear4 2 0 1 5) "0101" ".nc" [2015]).
  - right. vm_compute. lia.
  - unfold year4_ok; simpl; lia.
  - unfold all_digits; simpl; repeat constructor; eauto.
  - right. eauto.
Defined.



(** X3: when it returns, the list of files is a sublist of the locators
    found, in their order; and one file without an OPeNDAP locator among
    the results makes the whole selection fail, whatever its years. *)
Theorem files_of_years_sublist (search_results : list (option string)) (years : list Z) :
  (∀ files, files_of_years search_results years = Ok files →
            sublist files (omap (fun f => f) search_results)) ∧
  (None ∈ search_results → ∃ e, files_of_years search_results years = Err e).
Proof.
  split.
  - induction search_results as [|f rest IH]; simpl; intros files H.
    + injection H as <-. constructor.
    + destruct f as [url|]; [|done]. simpl.
      destruct (PyStr.last_item _) as [token|]; [|done]. rewrite Res_bind_Ok in H.
      destruct (_year_in_file token years) as [keep|]; [|done]. rewrite Res_bind_Ok in H.
      destruct (files_of_years rest years) as [files'|]; [|done].
      rewrite Res_bind_Ok in H. injection H as <-.
      destruct keep; [apply sublist_skip|apply sublist_cons]; by apply IH.
  - induction search_results as [|f rest IH]; intros Hin.
    + by apply elem_of_nil in Hin.
    + destruct f as [url|]; [|simpl; eauto].
      apply elem_of_cons in Hin as [?|Hin]; [done|].
      destruct (IH Hin) as (e & He). simpl.
      destruct (PyStr.last_item _) as [token|e1]; [|simpl; eauto]. rewrite Res_bind_Ok.
      destruct (_year_in_file token years) as [keep|e2]; [|simpl; eauto].
      rewrite Res_bind_Ok, He. simpl. eauto.
Qed.

(** X3 on a search that found a file without an OPeNDAP locator. *)
Lemma files_of_years_sublist_witness :
  ∃ e, files_of_years [Some (fn_url example_file_name); None] [2015] = Err e.
Proof.
  apply (proj2 (files_of_years_sublist [Some (fn_url example_file_name); None] [2015])).
  apply elem_of_cons. right. apply elem_of_cons. by left.
Defined.

(** ** Whole turns *)




(** ** The data follow their longitudes *)

Lemma sort_by_zip_lookup (lon : list Q) :
  Forall (fun qi : Q * nat => lon !! snd qi = Some (fst qi))
         (sort_by fst (zip lon (seq 0 (length lon)))).
Proof.
  rewrite sort_by_Permutation. apply Forall_forall. intros [q i] Hin. simpl.
  apply elem_of_lookup_zip_with in Hin as (j & x & y & [= -> ->] & Hx & Hy).
  apply lookup_seq in Hy as [-> _]. done.
Qed.

(** X5: [normalize_lon] moves every variable with its longitude: there is a
    rearrangement of the positions along the axis such that the label at
    each position of the result is the wrapped label of the input at the
    position it came from, and every variable holds there the values it
    held at that position; the other axes and the attributes stay. *)
Theorem normalize_lon_moves_data (ds ds1 : Dataset) :
  normalize_lon ds = Ok ds1 →
  ∃ from : list nat,
    from ≡ₚ seq 0 (length (ds_lon ds)) ∧
    Forall2 (fun x i => wrap_lon <$> ds_lon ds !! i = Some x) (ds_lon ds1) from ∧
    (∀ name, data_vars ds1 !! name = None ↔ data_vars ds !! name = None) ∧
    (∀ name (a : DataArray), data_vars ds !! name = Some a →
       ∃ a1 : DataArray, data_vars ds1 !! name = Some a1 ∧
             ∀ i, a1 i = a (set_dim DX (nth (i_x i) from 0%nat) i)) ∧
    ds_time ds1 = ds_time ds ∧ ds_lev ds1 = ds_lev ds ∧ ds_lat ds1 = ds_lat ds ∧
    attrs ds1 = attrs ds.
Proof.
  intros H. unfold normalize_lon in H.
  set (lon := map wrap_lon (ds_lon ds)) in H.
  set (sorted := sort_by fst (zip lon (seq 0 (length lon)))) in H.
  assert (E : ds1 = mkDataset (ds_time ds) (ds_lev ds) (ds_lat ds) (map fst sorted)
                    (ds_horiz ds) (ds_scalars ds)
                    (take_along DX (map snd sorted) <$> data_vars ds) (attrs ds)).
  { destruct (ds_horiz ds); try discriminate; by injection H as <-. }
  clear H. subst ds1. simpl. exists (map snd sorted).
  split; [|split; [|split; [|split]]].
  - unfold sorted. rewrite sort_by_Permutation.
    rewrite snd_zip by (rewrite length_seq; lia).
    unfold lon. by rewrite length_map.
  - pose proof (sort_by_zip_lookup lon) as Hl. fold sorted in Hl.
    clearbody sorted. induction Hl as [|[q i] l Hq _ IH]; simpl; [constructor|].
    constructor; [|exact IH]. simpl in Hq. unfold lon in Hq.
    by rewrite list_lookup_fmap in Hq.
  - intros name. by rewrite lookup_fmap, fmap_None.
  - intros name a Ha. exists (take_along DX (map snd sorted) a).
    split; [by rewrite lookup_fmap, Ha|done].
  - done.
Qed.

(** X5 on the longitudes 0 and 350 of the example: the two columns change
    places. *)
Lemma normalize_lon_moves_data_witness :
  ∃ from : list nat,
    from ≡ₚ [0%nat; 1%nat] ∧
    Forall2 (fun x i => wrap_lon <$> [0%Q; 350%Q] !! i = Some x) [(-10)%Q; 0%Q] from.
Proof.
  destruct (normalize_lon_moves_data rsds_dataset rsds_normalized eq_refl)
    as (from & Hperm & Hlab & _).
  exists from. split; [exact Hperm|exact Hlab].
Defined.

(** ** Selections *)










(** ** The dataset that [_rename_and_fix_coords] leaves *)






(** ** The sanitizer *)

(** X8: called on a dataset that has the variable [influx],
    [sanitize_inflow] replaces each of its values by the larger of the value
    and zero: the result is nowhere negative, values that were not negative
    stay, every other variable and the axes stay, and a second call changes
    nothing more. *)
Theorem sanitize_inflow_clamps (ds : Dataset) (influx : DataArray) :
  data_vars ds !! "influx" = Some influx →
  ∃ (ds' : Dataset) (clipped : DataArray),
    sanitize_inflow ds = Ok ds' ∧
    data_vars ds' !! "influx" = Some clipped ∧
    (∀ i, clipped i = Rmax (influx i) 0 ∧ (0 <= clipped i)%R ∧
          ((0 <= influx i)%R → clipped i = influx i)) ∧
    (∀ name, name ≠ "influx" → data_vars ds' !! name = data_vars ds !! name) ∧
    ds_time ds' = ds_time ds ∧ ds_lon ds' = ds_lon ds ∧ ds_lat ds' = ds_lat ds ∧
    ds_lev ds' = ds_lev ds ∧ attrs ds' = attrs ds ∧
    ∃ (ds'' : Dataset) (again : DataArray),
      sanitize_inflow ds' = Ok ds'' ∧ data_vars ds'' !! "influx" = Some again ∧
      ∀ i, again i = clipped i.
Proof.
  intros H. exists (setitem "influx" (clip_min 0 influx) ds), (clip_min 0 influx).
  assert (Hl : data_vars (setitem "influx" (clip_min 0 influx) ds) !! "influx"
               = Some (clip_min 0 influx)) by apply lookup_insert_eq.
  split; [unfold sanitize_inflow; by rewrite H|]. split; [exact Hl|]. split.
  { intros i. unfold clip_min. split; [done|]. split; [apply Rmax_r|].
    intros Hi. by apply Rmax_left. }
  split. { intros name Hne. simpl. by rewrite lookup_insert_ne. }
  do 5 (split; [done|]).
  exists (setitem "influx" (clip_min 0 (clip_min 0 influx))
                  (setitem "influx" (clip_min 0 influx) ds)),
         (clip_min 0 (clip_min 0 influx)).
  split; [unfold sanitize_inflow; by rewrite Hl|]. split; [apply lookup_insert_eq|].
  intros i. unfold clip_min. apply Rmax_left, Rmax_r.
Qed.

(** X8 on a field that is -1 in its first column and 0 in the second. *)
Lemma sanitize_inflow_clamps_witness :
  ∃ (ds' : Dataset) (clipped : DataArray),
    sanitize_inflow influx_dataset = Ok ds' ∧
    data_vars ds' !! "influx" = Some clipped ∧
    clipped (mkIndex 0 0 0 0) = 0%R.
Proof.
  destruct (sanitize_inflow_clamps influx_dataset (example_field (-1)) eq_refl)
    as (ds' & clipped & Hs & Hl & Hc & _).
  exists ds', clipped. split; [exact Hs|]. split; [exact Hl|].
  destruct (Hc (mkIndex 0 0 0 0)) as (-> & _). unfold example_field. simpl.
  apply Rmax_right. lra.
Defined.

(** ** Heights over the ground *)

Lemma ln_quotient (x y : R) : (0 < x)%R → (0 < y)%R → ln (x / y) = (ln x - ln y)%R.
Proof.
  intros Hx Hy. unfold Rdiv. rewrite ln_mult by (try apply Rinv_0_lt_compat; done).
  rewrite ln_Rinv by done. lra.
Qed.

(** X9: in a column where the virtual temperatures and the pressures are
    positive, the pressure of level 0 is below the surface pressure and the
    pressures fall from level to level, every height that the integration
    gives is positive. *)
Theorem hypsometric_heights_above_ground (klev : nat) (tv p ps : DataArray) (i : Index) :
  (∀ k, (k < klev)%nat → (0 < isel1 DLev k tv i)%R) →
  (∀ k, (k < klev)%nat → (0 < isel1 DLev k p i)%R) →
  (isel1 DLev 0 p i < ps i)%R →
  (∀ k, (S k < klev)%nat → (isel1 DLev (S k) p i < isel1 DLev k p i)%R) →
  ∀ k, (k < klev)%nat → (0 < nth k (hypsometric_heights klev tv p ps) zero_layer i)%R.
Proof.
  intros Htv Hp Hps Hdec k Hk.
  destruct (hypsometric_heights_layers klev tv p ps) as (_ & H0 & Hrec); [lia|].
  induction k as [|k IH].
  - rewrite H0. unfold surface_layer.
    pose proof (ln_ratio_neg _ _ (Hp 0%nat Hk) Hps) as Hln.
    pose proof Rd_over_g_pos as Hc. pose proof (Htv 0%nat Hk) as Ht.
    set (l := ln _) in *. set (c := (Rd / g)%R) in *. set (t := isel1 DLev 0 tv i) in *.
    assert (0 < c * t)%R by (by apply Rmult_lt_0_compat).
    assert (c * t * l < 0)%R.
    { replace 0%R with (c * t * 0)%R by ring. by apply Rmult_lt_compat_l. }
    lra.
  - rewrite (Hrec (S k)) by lia. replace (S k - 1)%nat with k by lia.
    assert (Hlt : (nth k (hypsometric_heights klev tv p ps) zero_layer i
                   < next_layer tv p (nth k (hypsometric_heights klev tv p ps) zero_layer)
                                (S k) i)%R).
    { apply next_layer_higher.
      - by apply Htv.
      - replace (S k - 1)%nat with k by lia. apply Htv. lia.
      - by apply Hp.
      - replace (S k - 1)%nat with k by lia. by apply Hdec. }
    assert (0 < nth k (hypsometric_heights klev tv p ps) zero_layer i)%R by (apply IH; lia).
    lra.
Qed.

(** X9 on three levels of 1000, 950 and 900 hPa under a surface pressure of
    1013.25 hPa. *)
Lemma hypsometric_heights_above_ground_witness :
  (0 < nth 2 (hypsometric_heights 3 tv_example p_example ps_example) zero_layer
         (mkIndex 0 0 0 0))%R.
Proof.
  apply (hypsometric_heights_above_ground 3 tv_example p_example ps_example (mkIndex 0 0 0 0)).
  - intros k _. unfold isel1, tv_example. lra.
  - intros k Hk. unfold isel1, p_example. simpl.
    assert (INR k <= 2)%R by (apply (le_INR k 2); lia). lra.
  - unfold isel1, p_example, ps_example. simpl. lra.
  - intros k Hk. unfold isel1, p_example. simpl.
    destruct k as [|k]; [simpl; lra|]. lra.
  - lia.
Defined.

(** X10: in a column of one virtual temperature [T] at every level, with
    positive pressures, the integration gives to every level the height of
    the hypsometric equation between the surface and that level: the layers
    in between cancel out. *)
Theorem hypsometric_heights_isothermal (klev : nat) (tv p ps : DataArray) (i : Index) (T : R) :
  (∀ k, (k < klev)%nat → isel1 DLev k tv i = T) →
  (∀ k, (k < klev)%nat → (0 < isel1 DLev k p i)%R) →
  (0 < ps i)%R →
  ∀ k, (k < klev)%nat →
    nth k (hypsometric_heights klev tv p ps) zero_layer i
    = isothermal_height T (isel1 DLev k p i) (ps i).
Proof.
  intros Htv Hp Hps k Hk.
  destruct (hypsometric_heights_layers klev tv p ps) as (_ & H0 & Hrec); [lia|].
  unfold isothermal_height. induction k as [|k IH].
  - rewrite H0. unfold surface_layer. by rewrite (Htv 0%nat Hk).
  - rewrite (Hrec (S k)) by lia. replace (S k - 1)%nat with k by lia.
    unfold next_layer. replace (S k - 1)%nat with k by lia.
    rewrite IH by lia. rewrite (Htv (S k)) by lia. rewrite (Htv k) by lia.
    rewrite !ln_quotient by (try apply Hp; try done; lia).
    set (c := (Rd / g)%R). set (a := ln (isel1 DLev k p i)).
    set (b := ln (isel1 DLev (S k) p i)). set (d := ln (ps i)).
    clearbody c a b d. lra.
Qed.

(** X10 on the column of 280 K of the example. *)
Lemma hypsometric_heights_isothermal_witness :
  nth 2 (hypsometric_heights 3 tv_example p_example ps_example) zero_layer (mkIndex 0 0 0 0)
  = isothermal_height 280 (p_example (mkIndex 0 2 0 0)) 101325.
Proof.
  apply (hypsometric_heights_isothermal 3 tv_example p_example ps_example (mkIndex 0 0 0 0) 280).
  - intros k _. reflexivity.
  - intros k Hk. unfold isel1, p_example. simpl.
    assert (INR k <= 2)%R by (apply (le_INR k 2); lia). lra.
  - unfold ps_example. lra.
  - lia.
Defined.

(** ** The grid of what a calculator returns *)

Lemma runs_any {A} (m : M A) T (Q : A → Prop) :
  runs m T Q → runs m (fun _ => True) (fun _ => True).
Proof.
  intros H s. destruct (H s) as (Hc & ev & Ht & _ & _).
  split; [done|]. exists ev. done.
Qed.

Lemma same_grid_refl ds : same_grid ds ds.
Proof. by repeat split. Qed.

Lemma same_grid_trans a b c : same_grid a b → same_grid b c → same_grid a c.
Proof.
  intros (?&?&?&?&?) (?&?&?&?&?). repeat split; congruence.
Qed.

Lemma rename_var_grid old new ds ds' : rename_var old new ds = Ok ds' → same_grid ds' ds.
Proof.
  unfold rename_var. destruct (data_vars ds !! old); [|done].
  case_bool_decide; [done|]. intros [= <-]. by repeat split.
Qed.

Lemma drop_scalar_grid name ds ds' : drop_scalar name ds = Ok ds' → same_grid ds' ds.
Proof.
  unfold drop_scalar. case_bool_decide; [|done]. intros [= <-]. by repeat split.
Qed.

Lemma rename_var_lookup old new ds ds' :
  rename_var old new ds = Ok ds' →
  data_vars ds' !! new = data_vars ds !! old ∧
  ∀ k, k ≠ new → k ≠ old → data_vars ds' !! k = data_vars ds !! k.
Proof.
  unfold rename_var. destruct (data_vars ds !! old) as [a|] eqn:E; [|done].
  case_bool_decide; [done|]. intros [= <-]. simpl. split.
  - by rewrite lookup_insert_eq.
  - intros k H1 H2. by rewrite lookup_insert_ne, lookup_delete_ne.
Qed.



(** ** The four calculators *)

Ltac skip_retrieve ds p :=
  eapply (runs_bind (fun _ => True) (fun _ _ _ _ => I) _ _ (fun _ => True));
  [ eapply runs_any; apply retrieve_data_runs | intros [ds p] _ ].

Lemma get_data_influx_result w (esgf_params_all : dict) cutout rp :
  runs (get_data_influx w esgf_params_all cutout rp) (fun _ => True) (cut_to w cutout None).
Proof.
  unfold get_data_influx.
  any_res source_id H1. any_res variant_label H2. any_res experiment_id H3.
  any_res project H4. any_res frequency H5.
  cbv zeta. any_res t_first Hf. any_res t_last Hl.
  skip_retrieve drsds p1. any_res rsds0 Hr1.
  skip_retrieve drsus p2. any_res rsus0 Hr2.
  any_res rsds Hs1. any_res rsus Hs2. any_res rsus_rsus Hv.
  any_res ds1 Hn1. any_res ds2 Hn2. any_res attr Hpop.
  apply runs_ret; [done|].
  exists drsds, rsds0, rsds, t_first, t_last. repeat (split; [done|]).
  apply rename_var_grid in Hn1, Hn2.
  eapply same_grid_trans; [|eapply same_grid_trans; [exact Hn2|exact Hn1]].
  by repeat split.
Qed.

Lemma get_data_surface_result w (esgf_params_all : dict) cutout rp :
  runs (get_data_surface w esgf_params_all cutout rp) (fun _ => True) (cut_to w cutout None).
Proof.
  unfold get_data_surface.
  any_res source_id H1. any_res variant_label H2. any_res experiment_id H3.
  any_res project H4. any_res frequency H5.
  cbv zeta. any_res t_first Hf. any_res t_last Hl.
  skip_retrieve dtas p1. any_res tas0 Hr1. any_res tas Hs1.
  skip_retrieve dqs p2. any_res qs0 Hr2. any_res qs Hs2.
  skip_retrieve dps p3. any_res ps0 Hr3. any_res ps Hs3.
  any_res ds1 Hn1. any_res tas_tas Hv1. any_res ps_ps Hv2. any_res qs_huss Hv3.
  any_res ds2 Hd. any_res attr Hpop.
  apply runs_ret; [done|].
  exists dtas, tas0, tas, t_first, t_last. repeat (split; [done|]).
  apply rename_var_grid in Hn1. apply drop_scalar_grid in Hd.
  eapply same_grid_trans; [|exact Hn1].
  eapply same_grid_trans; [|eapply same_grid_trans; [exact Hd|]]; by repeat split.
Qed.

Lemma get_data_wind10m_result w (esgf_params_all : dict) cutout rp :
  runs (get_data_wind10m w esgf_params_all cutout rp) (fun _ => True)
       (wind10m_result w cutout).
Proof.
  unfold get_data_wind10m.
  any_res source_id H1. any_res variant_label H2. any_res experiment_id H3.
  any_res project H4. any_res frequency H5.
  cbv zeta. any_res t_first Hf. any_res t_last Hl.
  skip_retrieve duas p1. any_res uas0 Hr1. any_res uas Hs1.
  skip_retrieve dvas p2. any_res vas0 Hr2. any_res vas Hs2.
  any_res uas_uas Hv1. any_res vas_vas Hv2.
  any_res ds1 Hn1. any_res ds2 Hd. any_res attr Hpop.
  apply runs_ret; [done|]. split.
  - exists duas, uas0, uas, t_first, t_last. repeat (split; [done|]).
    apply rename_var_grid in Hn1. apply drop_scalar_grid in Hd.
    eapply same_grid_trans; [|exact Hn1].
    eapply same_grid_trans; [|eapply same_grid_trans; [exact Hd|]]; by repeat split.
  - exists uas_uas, vas_vas.
    apply rename_var_lookup in Hn1 as [Hnew _]. apply getvar_Ok in Hv1.
    rewrite Hv1 in Hnew. apply drop_scalar_Ok in Hd.
    rewrite data_vars_set_attrs, !prune_lookup, Hd.
    repeat (case_bool_decide; [|exfalso; set_solver]).
    unfold setitem. simpl.
    rewrite lookup_insert_ne by done. rewrite lookup_insert_ne by done.
    rewrite lookup_insert_ne by done. rewrite !lookup_insert_eq. done.
Qed.

Lemma has_var_sel_cutout levs t0 t1 cutout ds ds' name :
  sel_cutout levs t0 t1 cutout ds = Ok ds' → has_var ds' name = has_var ds name.
Proof.
  intros H. apply sel_cutout_dom in H.
  apply eq_true_iff_eq. by rewrite !has_var_dom, H.
Qed.

Lemma get_data_wind_result w (esgf_params_all : dict) cutout rp :
  runs (get_data_wind w esgf_params_all cutout rp) (fun _ => True) (wind_result w cutout).
Proof.
  unfold get_data_wind.
  any_res source_id H1. any_res variant_label H2. any_res experiment_id H3.
  any_res project H4. any_res frequency H5. any_res table_id H6.
  cbv zeta.
  skip_retrieve du p1. any_res u0 Hr1.
  skip_retrieve dv p2. any_res v0 Hr2.
  any_res t_first Hf. any_res t_last Hl. any_res u Hs1. any_res v Hs2.
  any_res u_ua Hua. any_res v_va Hva.
  rewrite (has_var_sel_cutout _ _ _ _ _ _ "ps" Hs1).
  destruct (has_var u0 "ps") eqn:Eps.
  2:{ eapply (runs_bind (fun _ => True) (fun _ _ _ _ => I) _ _ (fun r => snd (fst r) = None)).
      { any_res u_b Hb. any_res u_orog Horog. by apply runs_ret. }
      intros [[z t_q_p] esgf_params] Hnone. simpl in Hnone. subst t_q_p.
      any_res v_va' Hva'. by apply runs_raise. }
  eapply (runs_bind (fun _ => True) (fun _ _ _ _ => I) _ _
            (fun r => ∃ (t q : Dataset) (ta hus ap b ps : DataArray),
               getvar t "ta" = Ok ta ∧ getvar q "hus" = Ok hus ∧
               (2 ≤ length (default [] (ds_lev u)))%nat ∧
               snd (fst r) = Some (t, q, level_pressure ap b ps) ∧
               fst (fst r)
               = concat_lev (hypsometric_heights (length (default [] (ds_lev u)))
                               (virtual_temperature ta hus) (level_pressure ap b ps) ps))).
  { skip_retrieve d_ta p3. any_res t0 Hr3. any_res t Hs3.
    skip_retrieve dq p4. any_res q0 Hr4. any_res q Hs4.
    any_res t_ta Hta. any_res q_hus Hhus. any_res b Hb. any_res ps Hps. any_res ap_u Hap.
    destruct (length (default [] (ds_lev u)) =? 0)%nat eqn:E0; [by apply runs_raise|].
    destruct (length (default [] (ds_lev u)) =? 1)%nat eqn:E1; [by apply runs_raise|].
    apply runs_ret; [done|]. simpl.
    exists t, q, t_ta, q_hus, ap_u, b, ps.
    apply Nat.eqb_neq in E0, E1. repeat (split; [done || lia|]). reflexivity. }
  intros [[z t_q_p] esgf_params] (t & q & ta & hus & ap_u & b & ps & Hta & Hhus & Hk & Etqp & Ez).
  simpl in Etqp, Ez. subst t_q_p z.
  any_res v_va' Hva'. any_res t_ta Hta'. any_res q_hus Hhus'. any_res attr Hpop.
  apply runs_ret; [done|].
  rewrite Hva in Hva'. injection Hva' as <-.
  rewrite Hta in Hta'. injection Hta' as <-.
  rewrite Hhus in Hhus'. injection Hhus' as <-.
  split.
  - exists du, u0, u, t_first, t_last. repeat (split; [done|]). by repeat split.
  - destruct (ds_lev u) as [levels|] eqn:Elev; [|simpl in Hk; lia]. simpl in Hk.
    exists u_ua, v_va, ta, hus, ap_u, b, ps, levels.
    split; [done|]. split; [done|].
    apply getvar_Ok in Hua.
    rewrite data_vars_set_attrs, !prune_lookup.
    repeat (case_bool_decide; [|exfalso; set_solver]).
    unfold setitem. simpl.
    repeat split;
      repeat (first [ rewrite lookup_insert_eq; reflexivity
                    | rewrite lookup_insert_ne by done ]);
      done.
Qed.

(** What [get_data] returns was returned by the calculator of the feature. *)
Lemma get_data_returns w cutout feature tmpdir lock sanitize s ds :
  fst (get_data w cutout feature tmpdir lock sanitize s) = Ok ds →
  ∃ d freq func,
    esgf_params_of_cutout s = Some d ∧ retrieval_frequency d cutout = Ok freq ∧
    globals !! ("get_data_" +:+ feature) = Some (Calculator func) ∧
    fst (func w (<["frequency" := freq]> d) cutout (mkRetrievalParams tmpdir lock)
              (mkState (Some (<["frequency" := freq]> d)) (trace s))) = Ok ds.
Proof.
  intros Hok.
  destruct (esgf_params_of_cutout s) as [d|] eqn:H.
  2:{ by rewrite get_data_no_params in Hok. }
  destruct (retrieval_frequency d cutout) as [freq|e] eqn:Hf.
  2:{ by rewrite (get_data_bad_cadence _ _ _ _ _ _ _ d e) in Hok. }
  destruct (globals !! ("get_data_" +:+ feature)) as [g|] eqn:Hg.
  2:{ by rewrite (get_data_unregistered _ _ _ _ _ _ _ d freq) in Hok. }
  destruct (get_data_registered w cutout feature tmpdir lock sanitize s d freq g H Hf Hg)
    as (func & -> & E). rewrite E in Hok.
  exists d, freq, func. done.
Qed.

Lemma runs_result {A} (m : M A) T (Q : A → Prop) s a :
  runs m T Q → fst (m s) = Ok a → Q a.
Proof. intros H Ha. destruct (H s) as (_ & _ & _ & _ & HQ). by apply HQ. Qed.

Lemma wind_result_cut_to w cutout ds : wind_result w cutout ds → cut_to w cutout sigma_slice ds.
Proof. by intros [H _]. Qed.

Lemma wind10m_result_cut_to w cutout ds : wind10m_result w cutout ds → cut_to w cutout None ds.
Proof. by intros [H _]. Qed.

Lemma get_data_cut_to w cutout feature tmpdir lock sanitize s ds :
  fst (get_data w cutout feature tmpdir lock sanitize s) = Ok ds →
  ∃ levs, cut_to w cutout levs ds.
Proof.
  intros Hok.
  apply get_data_returns in Hok as (d & freq & func & _ & _ & Hg & Hok).
  destruct (globals_calculator _ _ Hg) as (_ & _ & Hcases).
  destruct Hcases as [[_ E]|[[_ E]|[[_ E]|[_ E]]]]; injection E as ->.
  - exists None. eapply runs_result; [apply get_data_influx_result|exact Hok].
  - exists sigma_slice. apply wind_result_cut_to.
    eapply runs_result; [apply get_data_wind_result|exact Hok].
  - exists None. eapply runs_result; [apply get_data_surface_result|exact Hok].
  - exists None. apply wind10m_result_cut_to.
    eapply runs_result; [apply get_data_wind10m_result|exact Hok].
Qed.


(** ** What the dispatcher hands back *)








(** ** Parameters that are missing *)

Lemma bind_getitem_Some {B} (d : dict) k v (f : PyVal → M B) s :
  d !! k = Some v → (liftR (getitem d k) ≫= f) s = f v s.
Proof. intros H. unfold mbind, M_bind, liftR, getitem. by rewrite H. Qed.

Lemma bind_getitem_None {B} (d : dict) k (f : PyVal → M B) s :
  d !! k = None → (liftR (getitem d k) ≫= f) s = (Err (KeyError k), s).
Proof. intros H. unfold mbind, M_bind, liftR, getitem. by rewrite H. Qed.

Ltac read_keys :=
  repeat match goal with
  | H : ?d !! ?k = Some ?v |- context [liftR (getitem ?d ?k) ≫= _] =>
      rewrite (bind_getitem_Some d k v _ _ H)
  | H : ?d !! ?k = None |- context [liftR (getitem ?d ?k) ≫= _] =>
      rewrite (bind_getitem_None d k _ _ H)
  end.

Lemma calculator_missing_key w feature func (d : dict) cutout rp s before key after :
  globals !! ("get_data_" +:+ feature) = Some (Calculator func) →
  required_keys feature = before ++ key :: after →
  (∀ k, k ∈ before → is_Some (d !! k)) → d !! key = None →
  func w d cutout rp s = (Err (KeyError key), s).
Proof.
  intros Hg Hkeys Hbefore Hnone.
  destruct (globals_calculator _ _ Hg) as (_ & _ & Hcases).
  destruct Hcases as [[-> E]|[[-> E]|[[-> E]|[-> E]]]]; injection E as ->;
    unfold required_keys, frequency_key in Hkeys; simpl in Hkeys.
  - do 5 (destruct before as [|? before];
          [injection Hkeys as <- _; clear Hbefore; unfold get_data_influx; by read_keys|
           injection Hkeys as <- Hkeys;
           let v := fresh "v" in let Hv := fresh "Hv" in
           match type of Hbefore with ∀ k, k ∈ ?x :: _ → _ =>
             destruct (Hbefore x) as [v Hv]; [by left|] end;
           assert (H' : ∀ k, k ∈ before → is_Some (d !! k))
             by (intros ? ?; apply Hbefore; by right);
           clear Hbefore; rename H' into Hbefore]).
    by destruct before.
  - do 6 (destruct before as [|? before];
          [injection Hkeys as <- _; clear Hbefore; unfold get_data_wind; by read_keys|
           injection Hkeys as <- Hkeys;
           let v := fresh "v" in let Hv := fresh "Hv" in
           match type of Hbefore with ∀ k, k ∈ ?x :: _ → _ =>
             destruct (Hbefore x) as [v Hv]; [by left|] end;
           assert (H' : ∀ k, k ∈ before → is_Some (d !! k))
             by (intros ? ?; apply Hbefore; by right);
           clear Hbefore; rename H' into Hbefore]).
    by destruct before.
  - do 5 (destruct before as [|? before];
          [injection Hkeys as <- _; clear Hbefore; unfold get_data_surface; by read_keys|
           injection Hkeys as <- Hkeys;
           let v := fresh "v" in let Hv := fresh "Hv" in
           match type of Hbefore with ∀ k, k ∈ ?x :: _ → _ =>
             destruct (Hbefore x) as [v Hv]; [by left|] end;
           assert (H' : ∀ k, k ∈ before → is_Some (d !! k))
             by (intros ? ?; apply Hbefore; by right);
           clear Hbefore; rename H' into Hbefore]).
    by destruct before.
  - do 5 (destruct before as [|? before];
          [injection Hkeys as <- _; clear Hbefore; unfold get_data_wind10m; by read_keys|
           injection Hkeys as <- Hkeys;
           let v := fresh "v" in let Hv := fresh "Hv" in
           match type of Hbefore with ∀ k, k ∈ ?x :: _ → _ =>
             destruct (Hbefore x) as [v Hv]; [by left|] end;
           assert (H' : ∀ k, k ∈ before → is_Some (d !! k))
             by (intros ? ?; apply Hbefore; by right);
           clear Hbefore; rename H' into Hbefore]).
    by destruct before.
Qed.

Lemma required_keys_other feature k : k ∈ required_keys feature → k ≠ "frequency".
Proof.
  unfold required_keys. intros Hin ->.
  apply elem_of_app in Hin as [Hin|Hin].
  - repeat (apply elem_of_cons in Hin as [Hin|Hin]; [try discriminate Hin|]).
    + by apply (frequency_key_other feature).
    + by apply elem_of_nil in Hin.
  - destruct (String.eqb feature "wind"); [|by apply elem_of_nil in Hin].
    apply elem_of_cons in Hin as [Hin|Hin]; [discriminate Hin|by apply elem_of_nil in Hin].
Qed.

Lemma registered_calculator feature :
  feature ∈ dom features → ∃ func, globals !! ("get_data_" +:+ feature) = Some (Calculator func).
Proof.
  rewrite dom_features. intros H.
  repeat (apply elem_of_union in H as [H|H]); apply elem_of_singleton in H as ->; eauto.
Qed.

(** X14: for a registered feature, when the parameters of the cutout lack
    one of the keys that the calculator reads ([source_id],
    [variant_label], [experiment_id], [project], the frequency key of the
    feature, and [table_id_wind] for [wind]), [get_data] raises [KeyError]
    for the first key that is missing, in the order of reading; the
    frequency has been written to the dict by then, and nothing was searched
    or opened. *)
Theorem get_data_missing_key w cutout feature tmpdir lock sanitize s (d : dict) freq
    before key after :
  feature ∈ dom features →
  esgf_params_of_cutout s = Some d → retrieval_frequency d cutout = Ok freq →
  required_keys feature = before ++ key :: after →
  (∀ k, k ∈ before → is_Some (d !! k)) → d !! key = None →
  get_data w cutout feature tmpdir lock sanitize s
  = (Err (KeyError key), mkState (Some (<["frequency" := freq]> d)) (trace s)).
Proof.
  intros Hfeat Hd Hfreq Hkeys Hbefore Hnone.
  destruct (registered_calculator feature Hfeat) as [func Hg].
  destruct (get_data_registered w cutout feature tmpdir lock sanitize s d freq _ Hd Hfreq Hg)
    as (func' & E & ->). injection E as <-.
  assert (Hother : ∀ k, k ∈ required_keys feature → (<["frequency" := freq]> d) !! k = d !! k).
  { intros k Hk. apply lookup_insert_ne. intros E. symmetry in E.
    by apply (required_keys_other feature k). }
  apply (calculator_missing_key w feature func _ cutout _ _ before key after Hg Hkeys).
  - intros k Hk. rewrite Hother; [by apply Hbefore|].
    rewrite Hkeys. apply elem_of_app. by left.
  - rewrite Hother; [done|]. rewrite Hkeys. apply elem_of_app. right. by left.
Qed.

(** X14 on the example without [frequency_solar]: the dispatcher settles
    on the frequency [h], and the calculator of [influx] stops at the key
    it reads its own frequency from. *)
Lemma get_data_missing_key_witness :
  get_data example_world example_cutout "influx" "/tmp" None true
           (mkState (Some params_without_solar) [])
  = (Err (KeyError "frequency_solar"),
     mkState (Some (<["frequency" := VStr "h"]> params_without_solar)) []).
Proof.
  apply (get_data_missing_key example_world example_cutout "influx" "/tmp" None true
           (mkState (Some params_without_solar) []) params_without_solar (VStr "h")
           ["source_id"; "variant_label"; "experiment_id"; "project"] "frequency_solar" []).
  - rewrite dom_features. set_solver.
  - reflexivity.
  - reflexivity.
  - reflexivity.
  - intros k Hk.
    repeat (apply elem_of_cons in Hk as [->|Hk]; [vm_compute; eauto|]).
    by apply elem_of_nil in Hk.
  - reflexivity.
Defined.

(** ** A cutout without times *)

Lemma item_nil {A} : PyStr.item (@nil A) 0 = Err IndexError.
Proof. reflexivity. Qed.

Lemma calculator_without_times w feature func (d : dict) cutout rp s :
  globals !! ("get_data_" +:+ feature) = Some (Calculator func) →
  feature ≠ "wind" → coords_time cutout = [] →
  (∀ k, k ∈ required_keys feature → is_Some (d !! k)) →
  func w d cutout rp s = (Err IndexError, s).
Proof.
  intros Hg Hne Htimes Hkeys.
  destruct (globals_calculator _ _ Hg) as (_ & _ & Hcases).
  destruct Hcases as [[-> E]|[[-> E]|[[-> E]|[-> E]]]]; injection E as ->; try done;
    unfold required_keys, frequency_key in Hkeys; simpl in Hkeys.
  - destruct (Hkeys "source_id") as [v1 H1]; [set_solver|].
    destruct (Hkeys "variant_label") as [v2 H2]; [set_solver|].
    destruct (Hkeys "experiment_id") as [v3 H3]; [set_solver|].
    destruct (Hkeys "project") as [v4 H4]; [set_solver|].
    destruct (Hkeys "frequency_solar") as [v5 H5]; [set_solver|].
    unfold get_data_influx. read_keys. cbv zeta. by rewrite Htimes.
  - destruct (Hkeys "source_id") as [v1 H1]; [set_solver|].
    destruct (Hkeys "variant_label") as [v2 H2]; [set_solver|].
    destruct (Hkeys "experiment_id") as [v3 H3]; [set_solver|].
    destruct (Hkeys "project") as [v4 H4]; [set_solver|].
    destruct (Hkeys "frequency_temp") as [v5 H5]; [set_solver|].
    unfold get_data_surface. read_keys. cbv zeta. by rewrite Htimes.
  - destruct (Hkeys "source_id") as [v1 H1]; [set_solver|].
    destruct (Hkeys "variant_label") as [v2 H2]; [set_solver|].
    destruct (Hkeys "experiment_id") as [v3 H3]; [set_solver|].
    destruct (Hkeys "project") as [v4 H4]; [set_solver|].
    destruct (Hkeys "frequency_wnd10m") as [v5 H5]; [set_solver|].
    unfold get_data_wind10m. read_keys. cbv zeta. by rewrite Htimes.
Qed.

(** X15: for a cutout whose time coordinate is empty, [get_data] returns
    no dataset, whatever the feature; for [influx], [surface] and
    [wind10m], when the parameters hold the keys that the calculator reads,
    it raises [IndexError] before anything is searched or opened. *)
Theorem get_data_without_times w cutout feature tmpdir lock sanitize s :
  coords_time cutout = [] →
  (∃ e, fst (get_data w cutout feature tmpdir lock sanitize s) = Err e) ∧
  (∀ (d : dict) freq,
     feature ∈ dom features → feature ≠ "wind" →
     esgf_params_of_cutout s = Some d → retrieval_frequency d cutout = Ok freq →
     (∀ k, k ∈ required_keys feature → is_Some (d !! k)) →
     get_data w cutout feature tmpdir lock sanitize s
     = (Err IndexError, mkState (Some (<["frequency" := freq]> d)) (trace s))).
Proof.
  intros Htimes. split.
  - destruct (fst (get_data w cutout feature tmpdir lock sanitize s)) as [ds|e] eqn:E;
      [|eauto].
    apply get_data_cut_to in E as (levs & raw & fixed & selected & t1 & t2 & H1 & _).
    rewrite Htimes in H1. discriminate H1.
  - intros d freq Hfeat Hne Hd Hfreq Hkeys.
    destruct (registered_calculator feature Hfeat) as [func Hg].
    destruct (get_data_registered w cutout feature tmpdir lock sanitize s d freq _ Hd Hfreq Hg)
      as (func' & E & ->). injection E as <-.
    apply (calculator_without_times w feature func _ cutout _ _ Hg Hne Htimes).
    intros k Hk. rewrite lookup_insert_ne; [by apply Hkeys|].
    intros E. symmetry in E. by apply (required_keys_other feature k).
Qed.

(** X15 on the example cutout without its times. *)
Lemma get_data_without_times_witness :
  get_data example_world timeless_cutout "surface" "/tmp" None true example_state
  = (Err IndexError, mkState (Some (<["frequency" := VStr "h"]> example_params)) []).
Proof.
  apply (proj2 (get_data_without_times example_world timeless_cutout "surface" "/tmp" None
                  true example_state eq_refl) example_params (VStr "h")).
  - rewrite dom_features. set_solver.
  - done.
  - reflexivity.
  - reflexivity.
  - intros k Hk. unfold required_keys in Hk. simpl in Hk.
    repeat (apply elem_of_cons in Hk as [->|Hk]; [vm_compute; eauto|]).
    by apply elem_of_nil in Hk.
Defined.

(** ** The declared variables *)



(** ** The last time of the cutout *)




(** ** What reaches the catalog *)

Lemma queries_app (P : Event → Prop) e1 e2 : Forall P e1 → Forall P e2 → Forall P (e1 ++ e2).
Proof. apply Forall_app_2. Qed.

Lemma identifier_not k other :
  k ∈ identifiers → other ∉ identifiers → other ≠ k.
Proof. intros Hk Ho ->. done. Qed.

Lemma frequency_not_identifier : "frequency" ∉ identifiers.
Proof. unfold identifiers. set_solver. Qed.

Lemma variable_not_identifier : "variable" ∉ identifiers.
Proof. unfold identifiers. set_solver. Qed.

Lemma files_of_years_requested search_results years : ∀ files,
  files_of_years search_results years = Ok files → Forall (file_requested years) files.
Proof.
  induction search_results as [|f rest IH]; simpl; intros files H.
  - injection H as <-. constructor.
  - destruct f as [url|]; [|done].
    destruct (PyStr.last_item _) as [token|] eqn:Et; [|done]. rewrite Res_bind_Ok in H.
    destruct (_year_in_file token years) as [keep|] eqn:Ek; [|done]. rewrite Res_bind_Ok in H.
    destruct (files_of_years rest years) as [files'|]; [|done].
    rewrite Res_bind_Ok in H. injection H as <-.
    destruct keep; [|by apply IH]. constructor; [|by apply IH]. by exists token.
Qed.

Lemma search_ESGF_keys w (d q : dict) years :
  (∀ k, k ∈ identifiers → q !! k = d !! k) →
  runs (search_ESGF w q) (Forall (event_ok d (dom q) years)) (fun _ => True).
Proof.
  intros Hq s. unfold search_ESGF, mbind, M_bind, mret, M_ret, raise, emit. simpl.
  assert (H1 : Forall (event_ok d (dom q) years) [ESearch q]).
  { constructor; [|constructor]. by repeat split. }
  destruct (catalog w q) as [|latest rest] eqn:Ec; simpl.
  2:{ split; [done|]. eexists. split; [done|]. split; [exact H1|done]. }
  unfold liftR, getitem. destruct (q !! "frequency") as [v|] eqn:Ef; simpl.
  2:{ split; [done|]. eexists. split; [done|]. split; [exact H1|done]. }
  destruct v as [|f|l]; simpl.
  1,3: (split; [done|]; eexists; split; [done|]; split; [exact H1|done]).
  assert (H2 : Forall (event_ok d (dom q) years)
                 [ESearch q; EConstrain (<["frequency" := VStr (f +:+ "Pt")]> q)]).
  { constructor; [by repeat split|]. constructor; [|constructor]. split; [|done]. split.
    - rewrite dom_insert_L. apply elem_of_dom_2 in Ef. set_solver.
    - intros k Hk. rewrite lookup_insert_ne; [by apply Hq|].
      apply (identifier_not k); [done|apply frequency_not_identifier]. }
  destruct (catalog w (<["frequency" := VStr (f +:+ "Pt")]> q)) as [|latest rest]; simpl;
    (split; [done|]; eexists; split; [by rewrite <- app_assoc|]; split; [exact H2|done]).
Qed.

Lemma good_query_variable d K (q : dict) variable :
  good_query d K q →
  dom (<["variable" := VStr variable]> q) = K ∧
  (∀ k, k ∈ identifiers → (<["variable" := VStr variable]> q) !! k = d !! k) ∧
  good_query d K (<["variable" := VStr variable]> q).
Proof.
  intros [Hdom Hids].
  assert (H1 : dom (<["variable" := VStr variable]> q) = K).
  { rewrite dom_insert_L. rewrite <- Hdom. set_solver. }
  assert (H2 : ∀ k, k ∈ identifiers → (<["variable" := VStr variable]> q) !! k = d !! k).
  { intros k Hk. rewrite lookup_insert_ne; [by apply Hids|].
    apply (identifier_not k); [done|apply variable_not_identifier]. }
  split; [done|]. split; [done|]. split; [|done].
  rewrite H1, <- Hdom. set_solver.
Qed.

Lemma retrieve_data_keys w d K (q : dict) times variable rp :
  good_query d K q →
  runs (retrieve_data w q times [variable] rp)
       (Forall (event_ok d K (unique_years times)))
       (fun r => good_query d K (snd r)).
Proof.
  intros Hgood. destruct (good_query_variable d K q variable Hgood) as (Hdom & Hids & Hgood').
  set (P := event_ok d K (unique_years times)).
  unfold retrieve_data.
  eapply (runs_bind (Forall P) (queries_app _) _ _
            (fun acc => fst acc = <["variable" := VStr variable]> q)).
  - eapply runs_events.
    + apply with_lock_runs.
      apply (runs_bind (Forall P) (queries_app _) _ _
               (fun acc => fst acc = <["variable" := VStr variable]> q)).
      * unfold retrieve_variable.
        eapply (runs_bind (Forall P) (queries_app _)).
        { unfold P. rewrite <- Hdom. by apply search_ESGF_keys. }
        intros search_results _.
        eapply (runs_bind (Forall P) (queries_app _)).
        { apply runs_liftR. constructor. }
        intros files Hfiles. cbv beta in Hfiles.
        eapply (runs_bind (Forall P) (queries_app _)).
        { apply runs_emit. constructor; [|constructor]. split; [done|].
          by apply (files_of_years_requested search_results). }
        intros _ _.
        eapply (runs_bind (Forall P) (queries_app _)).
        { apply runs_liftR. constructor. }
        intros ds _. apply runs_ret; [constructor|done].
      * intros acc Hacc. apply runs_ret; [constructor|done].
    + intros events (b & -> & Hb). destruct (lock rp); simpl; [|done].
      constructor; [done|]. apply Forall_app_2; [done|]. by repeat constructor.
  - intros [p dsets] Hp. simpl in Hp. subst p.
    apply runs_ret; [constructor|]. done.
Qed.

Ltac key_res x H :=
  eapply (runs_bind (Forall (event_ok _ _ _)) (queries_app _));
  [ apply runs_liftR; constructor | intros x H; cbv beta in H ].

Ltac key_retrieve ds p Hp :=
  eapply (runs_bind (Forall (event_ok _ _ _)) (queries_app _));
  [ apply retrieve_data_keys | intros [ds p] Hp; simpl in Hp ].

Lemma first_query_good (d : dict) K (q : dict) :
  dom q ∪ {[ "variable" ]} = K →
  q !! "source_id" = d !! "source_id" → q !! "variant_label" = d !! "variant_label" →
  q !! "experiment_id" = d !! "experiment_id" → q !! "project" = d !! "project" →
  good_query d K q.
Proof.
  intros Hdom H1 H2 H3 H4. split; [done|]. intros k Hk. unfold identifiers in Hk.
  repeat (apply elem_of_cons in Hk as [->|Hk]; [done|]). by apply elem_of_nil in Hk.
Qed.

Ltac first_query H1 H2 H3 H4 :=
  apply first_query_good;
  [ rewrite !dom_insert_L, dom_empty_L; unfold query_keys; simpl; set_solver
  | rewrite H1; by simplify_map_eq
  | rewrite H2; by simplify_map_eq
  | rewrite H3; by simplify_map_eq
  | rewrite H4; by simplify_map_eq ].

Lemma get_data_influx_keys w (d : dict) cutout rp :
  runs (get_data_influx w d cutout rp)
       (Forall (event_ok d (query_keys "influx") (unique_years (coords_time cutout))))
       (fun _ => True).
Proof.
  unfold get_data_influx.
  key_res source_id H1. key_res variant_label H2. key_res experiment_id H3.
  key_res project H4. key_res frequency H5.
  apply getitem_Ok in H1, H2, H3, H4, H5.
  cbv zeta. key_res t_first Hf. key_res t_last Hl.
  key_retrieve drsds p1 Hp1. { first_query H1 H2 H3 H4. }
  key_res rsds0 Hr1.
  key_retrieve drsus p2 Hp2. { exact Hp1. }
  key_res rsus0 Hr2. key_res rsds Hs1. key_res rsus Hs2. key_res rsus_rsus Hv.
  key_res ds1 Hn1. key_res ds2 Hn2. key_res attr Hpop.
  apply runs_ret; [constructor|done].
Qed.

Lemma get_data_surface_keys w (d : dict) cutout rp :
  runs (get_data_surface w d cutout rp)
       (Forall (event_ok d (query_keys "surface") (unique_years (coords_time cutout))))
       (fun _ => True).
Proof.
  unfold get_data_surface.
  key_res source_id H1. key_res variant_label H2. key_res experiment_id H3.
  key_res project H4. key_res frequency H5.
  apply getitem_Ok in H1, H2, H3, H4, H5.
  cbv zeta. key_res t_first Hf. key_res t_last Hl.
  key_retrieve dtas p1 Hp1. { first_query H1 H2 H3 H4. }
  key_res tas0 Hr1. key_res tas Hs1.
  key_retrieve dqs p2 Hp2. { exact Hp1. }
  key_res qs0 Hr2. key_res qs Hs2.
  key_retrieve dps p3 Hp3. { exact Hp2. }
  key_res ps0 Hr3. key_res ps Hs3.
  key_res ds1 Hn1. key_res tas_tas Hv1. key_res ps_ps Hv2. key_res qs_huss Hv3.
  key_res ds2 Hd. key_res attr Hpop.
  apply runs_ret; [constructor|done].
Qed.

Lemma get_data_wind10m_keys w (d : dict) cutout rp :
  runs (get_data_wind10m w d cutout rp)
       (Forall (event_ok d (query_keys "wind10m") (unique_years (coords_time cutout))))
       (fun _ => True).
Proof.
  unfold get_data_wind10m.
  key_res source_id H1. key_res variant_label H2. key_res experiment_id H3.
  key_res project H4. key_res frequency H5.
  apply getitem_Ok in H1, H2, H3, H4, H5.
  cbv zeta. key_res t_first Hf. key_res t_last Hl.
  key_retrieve duas p1 Hp1. { first_query H1 H2 H3 H4. }
  key_res uas0 Hr1. key_res uas Hs1.
  key_retrieve dvas p2 Hp2. { exact Hp1. }
  key_res vas0 Hr2. key_res vas Hs2.
  key_res uas_uas Hv1. key_res vas_vas Hv2.
  key_res ds1 Hn1. key_res ds2 Hd. key_res attr Hpop.
  apply runs_ret; [constructor|done].
Qed.

Lemma get_data_wind_keys w (d : dict) cutout rp :
  runs (get_data_wind w d cutout rp)
       (Forall (event_ok d (query_keys "wind") (unique_years (coords_time cutout))))
       (fun _ => True).
Proof.
  unfold get_data_wind.
  key_res source_id H1. key_res variant_label H2. key_res experiment_id H3.
  key_res project H4. key_res frequency H5. key_res table_id H6.
  apply getitem_Ok in H1, H2, H3, H4, H5, H6.
  cbv zeta.
  key_retrieve du p1 Hp1. { first_query H1 H2 H3 H4. }
  key_res u0 Hr1.
  key_retrieve dv p2 Hp2. { exact Hp1. }
  key_res v0 Hr2.
  key_res t_first Hf. key_res t_last Hl. key_res u Hs1. key_res v Hs2.
  key_res u_ua Hua. key_res v_va Hva.
  eapply (runs_bind (Forall (event_ok _ _ _)) (queries_app _) _ _ (fun _ => True)).
  { destruct (has_var u "ps").
    - key_retrieve d_ta p3 Hp3. { exact Hp2. }
      key_res t0 Hr3. key_res t Hs3.
      key_retrieve dq p4 Hp4. { exact Hp3. }
      key_res q0 Hr4. key_res q Hs4.
      key_res t_ta Hta. key_res q_hus Hhus. key_res b Hb. key_res ps Hps. key_res ap_u Hap.
      destruct (_ =? 0)%nat; [apply runs_raise; constructor|].
      destruct (_ =? 1)%nat; [apply runs_raise; constructor|].
      apply runs_ret; [constructor|done].
    - key_res u_b Hb. key_res u_orog Horog. apply runs_ret; [constructor|done]. }
  intros [[z t_q_p] esgf_params] _.
  key_res v_va' Hva'.
  destruct t_q_p as [[[t q] p]|]; [|apply runs_raise; constructor].
  key_res t_ta Hta. key_res q_hus Hhus. key_res attr Hpop.
  apply runs_ret; [constructor|done].
Qed.

(** The events of a call *)
Lemma get_data_events w cutout feature tmpdir lock sanitize s :
  ∃ events,
    trace (snd (get_data w cutout feature tmpdir lock sanitize s)) = trace s ++ events ∧
    (events = [] ∨
     ∃ d freq, esgf_params_of_cutout s = Some d ∧
       Forall (event_ok (<["frequency" := freq]> d) (query_keys feature)
                        (unique_years (coords_time cutout))) events).
Proof.
  destruct (esgf_params_of_cutout s) as [d|] eqn:H.
  2:{ rewrite get_data_no_params by done. exists []. rewrite app_nil_r. auto. }
  destruct (retrieval_frequency d cutout) as [freq|e] eqn:Hf.
  2:{ rewrite (get_data_bad_cadence _ _ _ _ _ _ _ d e) by done.
      exists []. rewrite app_nil_r. auto. }
  destruct (globals !! ("get_data_" +:+ feature)) as [g|] eqn:Hg.
  2:{ rewrite (get_data_unregistered _ _ _ _ _ _ _ d freq) by done.
      exists []. rewrite app_nil_r. auto. }
  destruct (get_data_registered w cutout feature tmpdir lock sanitize s d freq g H Hf Hg)
    as (func & -> & ->).
  assert (Hruns : runs (func w (<["frequency" := freq]> d) cutout
                          (mkRetrievalParams tmpdir lock))
                    (Forall (event_ok (<["frequency" := freq]> d) (query_keys feature)
                                      (unique_years (coords_time cutout))))
                    (fun _ => True)).
  { destruct (globals_calculator _ _ Hg) as (_ & _ & Hcases).
    destruct Hcases as [[-> E]|[[-> E]|[[-> E]|[-> E]]]]; injection E as ->.
    - apply get_data_influx_keys.
    - apply get_data_wind_keys.
    - apply get_data_surface_keys.
    - apply get_data_wind10m_keys. }
  destruct (Hruns (mkState (Some (<["frequency" := freq]> d)) (trace s)))
    as (_ & events & Ht & Hall & _).
  exists events. split; [exact Ht|]. right. by exists d, freq.
Qed.

(** X18: every query that [get_data] sends to the catalog, first tries and
    second tries alike, has (beside [latest=True]) exactly the keys
    [source_id], [variant_label], [experiment_id], [project], [frequency]
    and [variable], and [table_id] for [wind], the four identifiers holding
    what the parameters of the cutout hold under them: no other parameter
    of the cutout reaches the catalog. *)
Theorem get_data_queries w cutout feature tmpdir lock sanitize s :
  ∃ events,
    trace (snd (get_data w cutout feature tmpdir lock sanitize s)) = trace s ++ events ∧
    ∀ q, ESearch q ∈ events ∨ EConstrain q ∈ events →
      dom q = query_keys feature ∧
      ∀ d, esgf_params_of_cutout s = Some d →
           ∀ k, k ∈ identifiers → q !! k = d !! k.
Proof.
  destruct (get_data_events w cutout feature tmpdir lock sanitize s)
    as (events & Ht & Hev).
  exists events. split; [exact Ht|].
  destruct Hev as [->|(d & freq & Hd & Hall)].
  { intros q [Hq|Hq]; by apply elem_of_nil in Hq. }
  rewrite Forall_forall in Hall.
  assert (Hq : ∀ q, ESearch q ∈ events ∨ EConstrain q ∈ events →
                    dom q = query_keys feature ∧
                    ∀ k, k ∈ identifiers → q !! k = (<["frequency" := freq]> d) !! k).
  { intros q [Hin|Hin]; apply (Hall _ Hin). }
  intros q Hin. destruct (Hq q Hin) as [Hdom Hids]. split; [done|].
  intros d' Hd'. rewrite Hd in Hd'. injection Hd' as <-.
  intros k Hk. rewrite (Hids k Hk). apply lookup_insert_ne.
  apply (identifier_not k); [done|apply frequency_not_identifier].
Qed.

(** X18 on the example: the first query for the radiation is among the
    events, and these are its keys. *)
Lemma get_data_queries_witness : dom example_query = query_keys "influx".
Proof.
  destruct (get_data_queries example_world example_cutout "influx" "/tmp" None true
              example_state) as (events & Ht & Hq).
  apply (Hq example_query). left.
  assert (E : events = trace (snd (get_data example_world example_cutout "influx" "/tmp" None
                                     true example_state))) by (rewrite Ht; reflexivity).
  rewrite E. vm_compute. apply elem_of_cons. by left.
Defined.



(** ** The flag [sanitize] *)

(** X19: no registered feature has a sanitizer under its name, and for
    every feature, registered or not, [get_data] does with [sanitize=True]
    exactly what it does with [sanitize=False]: the same result or
    exception, the same writes and the same events. *)
Theorem sanitize_flag_without_effect w cutout feature tmpdir lock s :
  (feature ∈ dom features → globals !! ("sanitize_" +:+ feature) = None) ∧
  get_data w cutout feature tmpdir lock true s = get_data w cutout feature tmpdir lock false s.
Proof.
  split; [|apply get_data_sanitize_irrelevant].
  intros Hfeat. destruct (registered_calculator feature Hfeat) as [func Hg].
  by destruct (globals_calculator _ _ Hg) as (_ & Hs & _).
Qed.

(** ** Where the fields come from *)







